(** * D-Med patient records (appv1.py): a shallow embedding and its properties

    The program is a Streamlit front end over one SQLite database file.
    This development embeds the database layer of [src/appv1.py]:
    [get_db_connection], [init_db], the credential functions, the patient and
    visit writers and the two reports, and proves the properties the
    specification states about them.

    Modelling conventions.
    - A Python [str] and an SQLite TEXT value are a [string]; its characters
      are read as the code points 0..255.  SQLite compares TEXT with the
      BINARY collation, which on such values is [String.compare].
    - A Python [int] and an SQLite INTEGER are a [Z].  Row ids are handed out
      by AUTOINCREMENT; the 2^63 ceiling of a rowid is out of reach of a
      program that inserts one row per call and is not modelled.  An [int]
      that is bound to a statement and does not fit 64 bits makes [sqlite3]
      raise [OverflowError]; this is modelled for the id that
      [update_patient_status] looks up, and the patient id of [add_visit] is
      taken to fit.
    - A nullable column is an [option]; a NOT NULL column, which the program
      always feeds with a [str] or an [int], has the plain type.
    - A table is the list of its rows in rowid order together with its
      [sqlite_sequence] counter.  [CREATE TABLE IF NOT EXISTS] does not change
      the rows of a table, and a new file has no rows: a database is the
      content of its four tables.
    - Statements run in the state-and-exception monad [M]: a statement either
      returns a value or raises, and in both cases leaves a connection.
    - A connection holds the database as it sees it, with its own writes, and
      the content of the file, which changes at [commit] only; a connection
      that is opened sees the content of the file. *)

From Stdlib Require Import ZArith List String Ascii Bool Lia.
From Stdlib Require Import DecimalString DecimalPos DecimalZ.
From Stdlib Require Import Permutation Sorted.
Import ListNotations.

Local Open Scope string_scope.
Local Open Scope Z_scope.

(** ** Text formatting *)

(** [str(z)] of a Python int. *)
Definition str_int (z : Z) : string := NilZero.string_of_int (Z.to_int z).

(** The format specification [02d]: sign-aware zero padding to width 2. *)
Definition format_02d (z : Z) : string :=
  if (0 <=? z) && (z <? 10) then "0" ++ str_int z else str_int z.

(** Left padding with the digit 0 up to [w] characters. *)
Definition zfill (w : nat) (s : string) : string :=
  string_of_list_ascii (repeat "0"%char (w - String.length s)) ++ s.

(** A [datetime.date], as the date widgets of the form hand it over. *)
Record date : Type := mkDate { year : Z; month : Z; day : Z }.

(** [d.strftime('%Y-%m-%d')]: four digits of year, two of month, two of day
    (the platforms agree on this from year 1000 on). *)
Definition strftime_ymd (d : date) : string :=
  zfill 4 (str_int (year d)) ++ "-" ++ zfill 2 (str_int (month d))
    ++ "-" ++ zfill 2 (str_int (day d)).

(** ** The [json] module, on lists of strings

    [add_visit] stores [json.dumps(tags)] and [get_action_tags_stats] reads it
    back with [json.loads].  Both are modelled with the defaults the program
    uses: [ensure_ascii=True] and the separator [", "] for the writer, the
    strict scanner for the reader. *)

Definition quote_char : ascii := "034"%char.
Definition backslash_char : ascii := "\"%char.

(** One lower-case hexadecimal digit. *)
Definition hex_digit (n : N) : ascii :=
  if (n <? 10)%N then ascii_of_N (48 + n) else ascii_of_N (87 + n).

(** ['{0:04x}'.format(n)] for [n] below 0x10000. *)
Definition format_04x (n : N) : string :=
  String (hex_digit ((n / 4096) mod 16))
    (String (hex_digit ((n / 256) mod 16))
       (String (hex_digit ((n / 16) mod 16))
          (String (hex_digit (n mod 16)) EmptyString))).

(** The replacement of one character by [encode_basestring_ascii]: the
    quote, the backslash and the five named control characters get their
    two-character escape, anything else outside [' '..'~'] a [\uXXXX]. *)
Definition escape_char (c : ascii) : string :=
  let n := N_of_ascii c in
  if (c =? quote_char)%char then String backslash_char (String quote_char EmptyString)
  else if (c =? backslash_char)%char then "\\"
  else if (n =? 8)%N then "\b"
  else if (n =? 12)%N then "\f"
  else if (n =? 10)%N then "\n"
  else if (n =? 13)%N then "\r"
  else if (n =? 9)%N then "\t"
  else if (n <? 32)%N || (126 <? n)%N then "\u" ++ format_04x n
  else String c EmptyString.

Fixpoint escape_body (s : string) : string :=
  match s with
  | EmptyString => EmptyString
  | String c s' => escape_char c ++ escape_body s'
  end.

Definition encode_basestring_ascii (s : string) : string :=
  String quote_char (escape_body s ++ String quote_char EmptyString).

Fixpoint dumps_items (l : list string) : string :=
  match l with
  | [] => EmptyString
  | [x] => encode_basestring_ascii x
  | x :: l' => encode_basestring_ascii x ++ ", " ++ dumps_items l'
  end.

(** [json.dumps(tags)] for a list of strings. *)
Definition json_dumps (tags : list string) : string :=
  "[" ++ dumps_items tags ++ "]".

(** JSON white space. *)
Definition is_ws (c : ascii) : bool :=
  let n := N_of_ascii c in
  (n =? 32)%N || (n =? 9)%N || (n =? 10)%N || (n =? 13)%N.

Fixpoint skip_ws (s : string) : string :=
  match s with
  | String c s' => if is_ws c then skip_ws s' else s
  | EmptyString => s
  end.

(** The value of a hexadecimal digit, either case. *)
Definition hex_val (c : ascii) : option N :=
  let n := N_of_ascii c in
  if (48 <=? n)%N && (n <=? 57)%N then Some (n - 48)%N
  else if (97 <=? n)%N && (n <=? 102)%N then Some (n - 87)%N
  else if (65 <=? n)%N && (n <=? 70)%N then Some (n - 55)%N
  else None.

Definition decode_uXXXX (h1 h2 h3 h4 : ascii) : option N :=
  match hex_val h1, hex_val h2, hex_val h3, hex_val h4 with
  | Some a, Some b, Some c, Some d => Some (((a * 16 + b) * 16 + c) * 16 + d)%N
  | _, _, _, _ => None
  end.

(** The table [BACKSLASH] of the scanner. *)
Definition backslash_table (e : ascii) : option ascii :=
  if (e =? quote_char)%char then Some quote_char
  else if (e =? backslash_char)%char then Some backslash_char
  else if (e =? "/")%char then Some "/"%char
  else if (e =? "b")%char then Some "008"%char
  else if (e =? "f")%char then Some "012"%char
  else if (e =? "n")%char then Some "010"%char
  else if (e =? "r")%char then Some "013"%char
  else if (e =? "t")%char then Some "009"%char
  else None.

Definition cons_decoded (c : ascii) (r : option (string * string))
  : option (string * string) :=
  match r with
  | Some (t, rest) => Some (String c t, rest)
  | None => None
  end.

(** [scanstring]: [s] is the text after the opening quote; the result is the
    decoded string and the text after the closing quote.  [None] stands for
    [JSONDecodeError], and for an escape above code point 255, whose
    character the [string] type cannot hold. *)
Fixpoint scanstring (s : string) : option (string * string) :=
  match s with
  | EmptyString => None
  | String c s1 =>
      if (c =? quote_char)%char then Some (EmptyString, s1)
      else if (c =? backslash_char)%char then
        match s1 with
        | EmptyString => None
        | String e s2 =>
            if (e =? "u")%char then
              match s2 with
              | String h1 (String h2 (String h3 (String h4 s3))) =>
                  match decode_uXXXX h1 h2 h3 h4 with
                  | Some n =>
                      if (n <? 256)%N
                      then cons_decoded (ascii_of_N n) (scanstring s3)
                      else None
                  | None => None
                  end
              | _ => None
              end
            else
              match backslash_table e with
              | Some ch => cons_decoded ch (scanstring s2)
              | None => None
              end
        end
      else if (N_of_ascii c <? 32)%N then None
      else cons_decoded c (scanstring s1)
  end.

(** The loop of [JSONArray]: [s] starts at a value.  A value that is not a
    string is answered with [None]: the column only ever holds what
    [json_dumps] wrote. *)
Fixpoint JSONArray_items (fuel : nat) (s : string)
  : option (list string * string) :=
  match fuel with
  | O => None
  | S fuel' =>
      match s with
      | EmptyString => None
      | String c s1 =>
          if (c =? quote_char)%char then
            match scanstring s1 with
            | None => None
            | Some (v, r) =>
                match skip_ws r with
                | EmptyString => None
                | String d r' =>
                    if (d =? "]")%char then Some ([v], r')
                    else if (d =? ",")%char then
                      match JSONArray_items fuel' (skip_ws r') with
                      | Some (vs, r'') => Some (v :: vs, r'')
                      | None => None
                      end
                    else None
                end
            end
          else None
      end
  end.

(** [JSONArray]: [s] is the text after the opening bracket. *)
Definition JSONArray (s : string) : option (list string * string) :=
  match skip_ws s with
  | EmptyString => None
  | String c r as s' =>
      if (c =? "]")%char then Some ([], r)
      else JSONArray_items (String.length s') s'
  end.

(** [json.loads(s)], for a document that is an array of strings. *)
Definition json_loads (s : string) : option (list string) :=
  match skip_ws s with
  | EmptyString => None
  | String c r =>
      if (c =? "[")%char then
        match JSONArray r with
        | Some (vs, r') =>
            match skip_ws r' with
            | EmptyString => Some vs
            | String _ _ => None
            end
        | None => None
        end
      else None
  end.

(** ** The database file and the connection *)

Record user_row : Type := mkUser
  { u_id : Z; u_username : string; u_password_hash : string }.

Record patient_row : Type := mkPatient
  { p_id : Z; p_name : string; p_dob : string;
    p_gender : option string; p_diagnosis : option string;
    p_notes : option string; p_status : option string;
    p_handler_user : option string; p_created_at : string }.

Record visit_row : Type := mkVisit
  { v_id : Z; v_patient_id : Z; v_visit_date : string;
    v_reason : option string; v_outcome : option string;
    v_progress_status : option string; v_tags : option string;
    v_created_at : string }.

Record document_row : Type := mkDocument
  { d_id : Z; d_visit_id : Z; d_file_name : string; d_file_path : string;
    d_uploaded_at : string }.

(** The rows of a table in rowid order, and its AUTOINCREMENT counter. *)
Record table (R : Type) : Type := mkTable { rows : list R; seq : Z }.
Arguments mkTable {R} _ _.
Arguments rows {R} _.
Arguments seq {R} _.

Record database : Type := mkDb
  { users : table user_row; patients : table patient_row;
    visits : table visit_row; documents : table document_row }.

(** A connection: its [foreign_keys] pragma, the database it sees, and the
    content of the file it is open on. *)
Record connection : Type := mkConn
  { foreign_keys : bool; db : database; file : database }.

Definition empty_table {R : Type} : table R := mkTable [] 0.

(** The database of a file that does not exist yet. *)
Definition new_file : database :=
  mkDb empty_table empty_table empty_table empty_table.

(** AUTOINCREMENT: one more than the counter, which is never below a stored
    id since ids are only assigned here. *)
Definition append_row {R : Type} (mk : Z -> R) (t : table R) : table R :=
  mkTable (rows t ++ [mk (seq t + 1)]) (seq t + 1).

Definition set_users (d : database) (t : table user_row) : database :=
  mkDb t (patients d) (visits d) (documents d).
Definition set_patients (d : database) (t : table patient_row) : database :=
  mkDb (users d) t (visits d) (documents d).
Definition set_visits (d : database) (t : table visit_row) : database :=
  mkDb (users d) (patients d) t (documents d).

(** ** Statements: state and exceptions *)

Inductive exn : Type := IntegrityError | JSONDecodeError | OverflowError.

Inductive outcome (A : Type) : Type :=
| Returns (a : A) (c : connection)
| Raises (e : exn) (c : connection).
Arguments Returns {A} _ _.
Arguments Raises {A} _ _.

Definition M (A : Type) : Type := connection -> outcome A.

Definition ret {A : Type} (a : A) : M A := fun c => Returns a c.

Definition bind {A B : Type} (m : M A) (k : A -> M B) : M B :=
  fun c => match m c with
           | Returns a c' => k a c'
           | Raises e c' => Raises e c'
           end.

Definition raise {A : Type} (e : exn) : M A := fun c => Raises e c.

(** [try: body / except sqlite3.IntegrityError: handler]. *)
Definition try_except_IntegrityError {A : Type} (body handler : M A) : M A :=
  fun c => match body c with
           | Raises IntegrityError c' => handler c'
           | o => o
           end.

Declare Scope stmt_scope.
Delimit Scope stmt_scope with stmt.
Notation "x <- m ;; k" := (bind m (fun x => k))
  (at level 61, m at next level, right associativity) : stmt_scope.
Notation "m ;;; k" := (bind m (fun _ => k))
  (at level 61, right associativity) : stmt_scope.
Local Open Scope stmt_scope.

(** The connection an outcome leaves, and the value of a return. *)
Definition conn_of {A : Type} (o : outcome A) : connection :=
  match o with Returns _ c => c | Raises _ c => c end.

Definition value_of {A : Type} (o : outcome A) : option A :=
  match o with Returns a _ => Some a | Raises _ _ => None end.

(** [sqlite3.connect(path)]: SQLite leaves the [foreign_keys] pragma off on
    every new connection. *)
Definition sqlite3_connect (content : database) : connection :=
  mkConn false content content.

(** [conn.commit()]: what the connection has written becomes the content of
    the file. *)
Definition commit : M unit :=
  fun c => Returns tt (mkConn (foreign_keys c) (db c) (db c)).

(** Whether a Python int fits the signed 64 bits of an SQLite INTEGER. *)
Definition fits_int64 (z : Z) : bool := (- 2 ^ 63 <=? z) && (z <? 2 ^ 63).

(** [SELECT ... FROM users WHERE username = ?], [fetchone()]. *)
Definition select_user (username : string) : M (option user_row) :=
  fun c => Returns
    (find (fun u => (u_username u =? username)%string) (rows (users (db c)))) c.

(** [INSERT INTO users (username, password_hash)], under [username UNIQUE]. *)
Definition insert_user (username password_hash : string) : M Z :=
  fun c =>
    let t := users (db c) in
    if existsb (fun u => (u_username u =? username)%string) (rows t)
    then Raises IntegrityError c
    else Returns (seq t + 1)
           (mkConn (foreign_keys c)
              (set_users (db c)
                 (append_row (fun i => mkUser i username password_hash) t))
              (file c)).

(** [INSERT INTO patients (name, dob, gender, diagnosis, notes, status,
    handler_user)], under [UNIQUE(name, dob)]; [created_at] takes
    CURRENT_TIMESTAMP, here [now]. *)
Definition insert_patient (name dob : string)
    (gender diagnosis notes status handler_user : option string)
    (now : string) : M Z :=
  fun c =>
    let t := patients (db c) in
    if existsb (fun p => (p_name p =? name)%string && (p_dob p =? dob)%string)
         (rows t)
    then Raises IntegrityError c
    else Returns (seq t + 1)
           (mkConn (foreign_keys c)
              (set_patients (db c)
                 (append_row
                    (fun i => mkPatient i name dob gender diagnosis notes
                                status handler_user now) t))
              (file c)).

(** [INSERT INTO visits (patient_id, visit_date, reason, outcome,
    progress_status, tags)].  The clause [FOREIGN KEY (patient_id) REFERENCES
    patients (id)] is enforced only when the connection has turned the
    [foreign_keys] pragma on. *)
Definition insert_visit (patient_id : Z) (visit_date : string)
    (reason outcome progress_status tags : option string)
    (now : string) : M Z :=
  fun c =>
    let t := visits (db c) in
    if foreign_keys c
       && negb (existsb (fun p => p_id p =? patient_id)
                  (rows (patients (db c))))
    then Raises IntegrityError c
    else Returns (seq t + 1)
           (mkConn (foreign_keys c)
              (set_visits (db c)
                 (append_row
                    (fun i => mkVisit i patient_id visit_date reason outcome
                                progress_status tags now) t))
              (file c)).

(** What [UPDATE patients SET status = ?, handler_user = ? WHERE id = ?]
    does to one row. *)
Definition set_status (new_status handler_user : option string)
    (patient_id : Z) (p : patient_row) : patient_row :=
  if p_id p =? patient_id
  then mkPatient (p_id p) (p_name p) (p_dob p) (p_gender p) (p_diagnosis p)
         (p_notes p) new_status handler_user (p_created_at p)
  else p.

(** The [UPDATE] itself.  Binding [patient_id] raises [OverflowError],
    before anything is written, when the int does not fit 64 bits. *)
Definition update_status_stmt (new_status handler_user : option string)
    (patient_id : Z) : M unit :=
  fun c =>
    let t := patients (db c) in
    if fits_int64 patient_id
    then Returns tt
           (mkConn (foreign_keys c)
              (set_patients (db c)
                 (mkTable (map (set_status new_status handler_user patient_id)
                             (rows t)) (seq t)))
              (file c))
    else Raises OverflowError c.

(** ** 1. Database set-up *)

(** [get_db_connection()], on the content of the database file. *)
Definition get_db_connection (content : database) : connection :=
  sqlite3_connect content.

Section Credentials.

(** [hashlib.sha256(password.encode()).hexdigest()]. *)
Variable sha256_hexdigest : string -> string.

(** ** 2. Authentication *)

Definition hash_password (password : string) : string :=
  sha256_hexdigest password.

Definition verify_password (stored_hash provided_password : string) : bool :=
  (stored_hash =? hash_password provided_password)%string.

(** [user and verify_password(...)]: when no row was fetched the value is
    Python's [None], written [None] here as well; else it is the boolean of
    the comparison. *)
Definition login_user (username password : string) : M (option bool) :=
  user <- select_user username ;;
  ret (match user with
       | None => None
       | Some row => Some (verify_password (u_password_hash row) password)
       end).

(** Python's truth value of what [login_user] returns. *)
Definition truthy (v : option bool) : bool :=
  match v with Some b => b | None => false end.

(** [init_db(conn)]: the four [CREATE TABLE IF NOT EXISTS] leave the rows
    as they are; then the admin account is seeded unless one is there. *)
Definition init_db : M unit :=
  admin <- select_user "admin" ;;
  (match admin with
   | None =>
       let default_password_hash := hash_password "admin123" in
       insert_user "admin" default_password_hash ;;; ret tt
   | Some _ => ret tt
   end) ;;;
  commit.

End Credentials.

(** ** 3. Database operations *)

(** [add_patient]: [True] after the insert, [False] (after a warning on the
    page) when the insert raised [IntegrityError]. *)
Definition add_patient (name : string) (dob : date)
    (gender diagnosis notes status handler_user : option string)
    (now : string) : M bool :=
  try_except_IntegrityError
    (insert_patient name (strftime_ymd dob) gender diagnosis notes status
       handler_user now ;;;
     commit ;;;
     ret true)
    (ret false).

(** [add_visit]: returns [cursor.lastrowid]. *)
Definition add_visit (patient_id : Z) (visit_date : date)
    (reason outcome progress : option string) (tags : list string)
    (now : string) : M Z :=
  let tags_json := json_dumps tags in
  lastrowid <- insert_visit patient_id (strftime_ymd visit_date) reason
                 outcome progress (Some tags_json) now ;;
  commit ;;;
  ret lastrowid.

Definition update_patient_status (patient_id : Z)
    (new_status handler_user : option string) : M unit :=
  update_status_stmt new_status handler_user patient_id ;;;
  commit.

(** ** 4. Reports and statistics *)

(** The columns [p.id, p.name, p.dob, p.gender, p.diagnosis]. *)
Record report_row : Type := mkReportRow
  { r_id : Z; r_name : string; r_dob : string;
    r_gender : option string; r_diagnosis : option string }.

Definition project_patient (p : patient_row) : report_row :=
  mkReportRow (p_id p) (p_name p) (p_dob p) (p_gender p) (p_diagnosis p).

Definition report_row_eq_dec (x y : report_row) : {x = y} + {x <> y}.
Proof.
  decide equality;
    try apply string_dec; try apply Z.eq_dec;
    decide equality; apply string_dec.
Defined.

(** [x BETWEEN lo AND hi] on TEXT. *)
Definition between (x lo hi : string) : bool :=
  (lo <=? x)%string && (x <=? hi)%string.

Definition start_date (year month : Z) : string :=
  str_int year ++ "-" ++ format_02d month ++ "-01".

Definition end_date (year month : Z) : string :=
  str_int year ++ "-" ++ format_02d month ++ "-31".

(** [patients p JOIN visits v ON p.id = v.patient_id WHERE v.visit_date
    BETWEEN ? AND ?], projected. *)
Definition join_patients_visits (d : database) (lo hi : string)
  : list report_row :=
  flat_map
    (fun p =>
       flat_map
         (fun v =>
            if (p_id p =? v_patient_id v) && between (v_visit_date v) lo hi
            then [project_patient p] else [])
         (rows (visits d)))
    (rows (patients d)).

(** [get_monthly_report]: the [SELECT DISTINCT] of the join. *)
Definition get_monthly_report (year month : Z) : M (list report_row) :=
  fun c =>
    Returns
      (nodup report_row_eq_dec
         (join_patients_visits (db c) (start_date year month)
            (end_date year month)))
      c.

(** [SELECT tags FROM visits WHERE tags IS NOT NULL AND tags != '[]']. *)
Definition select_tags (d : database) : list string :=
  flat_map
    (fun v =>
       match v_tags v with
       | None => []
       | Some t => if (t =? "[]")%string then [] else [t]
       end)
    (rows (visits d)).

(** The loop [for tags_json in df['tags']: all_tags.extend(json.loads(..))]. *)
Fixpoint extend_all (df : list string) (all_tags : list string)
  : M (list string) :=
  match df with
  | [] => ret all_tags
  | tags_json :: df' =>
      match json_loads tags_json with
      | Some tags_list => extend_all df' (all_tags ++ tags_list)
      | None => raise JSONDecodeError
      end
  end.

(** [collections.Counter]: keys in the order of their first occurrence. *)
Fixpoint counter_add (t : string) (cnt : list (string * nat))
  : list (string * nat) :=
  match cnt with
  | [] => [(t, 1%nat)]
  | (k, n) :: cnt' =>
      if (k =? t)%string then (k, S n) :: cnt' else (k, n) :: counter_add t cnt'
  end.

Definition Counter (l : list string) : list (string * nat) :=
  fold_left (fun cnt t => counter_add t cnt) l [].

(** [sort_values('Jumlah', ascending=False)].  Among equal counts the rows
    keep their order here; pandas promises none. *)
Fixpoint insert_desc (x : string * nat) (l : list (string * nat))
  : list (string * nat) :=
  match l with
  | [] => [x]
  | y :: l' => if (snd y <=? snd x)%nat then x :: l else y :: insert_desc x l'
  end.

Definition sort_values_desc (l : list (string * nat)) : list (string * nat) :=
  fold_right insert_desc [] l.

(** The list [all_tags] that the reporting scan builds. *)
Definition scan_all_tags : M (list string) :=
  fun c => extend_all (select_tags (db c)) [] c.

(** [get_action_tags_stats]: rows [(Tindakan, Jumlah)]; the empty frame is
    the empty list of rows. *)
Definition get_action_tags_stats : M (list (string * nat)) :=
  fun c =>
    let df := select_tags (db c) in
    match df with
    | [] => Returns [] c
    | _ :: _ =>
        (all_tags <- extend_all df [] ;;
         let tag_counts := Counter all_tags in
         ret (sort_values_desc tag_counts)) c
    end.

(** ** The states of a running installation

    [main()] opens the connection and runs [init_db] on every rerun of the
    script; between reruns a page calls the writers above.  [first_run] is
    the connection after the first run on a new file. *)
Definition first_run (sha256_hexdigest : string -> string) : connection :=
  conn_of (init_db sha256_hexdigest (get_db_connection new_file)).

Inductive reachable (sha256_hexdigest : string -> string)
  : connection -> Prop :=
| reach_first_run :
    reachable sha256_hexdigest (first_run sha256_hexdigest)
| reach_init_db c :
    reachable sha256_hexdigest c ->
    reachable sha256_hexdigest (conn_of (init_db sha256_hexdigest c))
| reach_add_patient c name dob gender diagnosis notes status handler now :
    reachable sha256_hexdigest c ->
    reachable sha256_hexdigest
      (conn_of (add_patient name dob gender diagnosis notes status handler
                  now c))
| reach_add_visit c patient_id visit_date reason outcome progress tags now :
    reachable sha256_hexdigest c ->
    reachable sha256_hexdigest
      (conn_of (add_visit patient_id visit_date reason outcome progress tags
                  now c))
| reach_update_patient_status c patient_id new_status handler :
    reachable sha256_hexdigest c ->
    reachable sha256_hexdigest
      (conn_of (update_patient_status patient_id new_status handler c)).

(** How often the pair [(name, dob)] is stored in the Patient Registry. *)
Definition count_patients (name dob : string) (c : connection) : nat :=
  List.length
    (filter (fun p => (p_name p =? name)%string && (p_dob p =? dob)%string)
       (rows (patients (db c)))).

(** How often [username] is stored in the Credential Store. *)
Definition count_users (username : string) (c : connection) : nat :=
  List.length
    (filter (fun u => (u_username u =? username)%string)
       (rows (users (db c)))).

(** Whether [patient_id] references a stored Patient. *)
Definition patient_exists (patient_id : Z) (c : connection) : bool :=
  existsb (fun p => p_id p =? patient_id) (rows (patients (db c))).

(** [n] runs of a statement, one after the other on the same connection. *)
Fixpoint repeat_stmt {A : Type} (n : nat) (m : M A) (c : connection)
  : connection :=
  match n with
  | O => c
  | S n' => repeat_stmt n' m (conn_of (m c))
  end.

(** What the schema and the writers maintain on a connection: the pragma
    stays off, nothing is left uncommitted, the Credential Store holds the
    seeded account, a (name, dob)
    pair and a patient id are stored at most once, no id exceeds the counter,
    and every [tags] cell is the [json_dumps] of a list. *)
Record consistent (sha256_hexdigest : string -> string) (c : connection)
  : Prop := mkConsistent
  { cons_fk : foreign_keys c = false;
    cons_committed : file c = db c;
    cons_users :
      rows (users (db c))
      = [mkUser 1 "admin" (hash_password sha256_hexdigest "admin123")];
    cons_unique :
      forall name dob, (count_patients name dob c <= 1)%nat;
    cons_ids :
      Forall (fun p => p_id p <= seq (patients (db c)))
        (rows (patients (db c)));
    cons_ids_nodup : NoDup (map p_id (rows (patients (db c))));
    cons_tags :
      Forall (fun v => exists l, v_tags v = Some (json_dumps l))
        (rows (visits (db c))) }.

(** The ledger holds a visit of patient [p] dated between [lo] and [hi]. *)
Definition visited_between (c : connection) (p : patient_row)
    (lo hi : string) : Prop :=
  exists v,
    In v (rows (visits (db c)))
    /\ v_patient_id v = p_id p
    /\ (lo <=? v_visit_date v)%string = true
    /\ (v_visit_date v <=? hi)%string = true.

(** [tag_counts[t]], which is 0 for a key that is missing. *)
Fixpoint counter_get (t : string) (cnt : list (string * nat)) : nat :=
  match cnt with
  | [] => 0%nat
  | (k, n) :: cnt' => if (k =? t)%string then n else counter_get t cnt'
  end.

(** The order of the sorted frame: counts do not grow down the rows. *)
Definition count_desc (a b : string * nat) : Prop := (snd b <= snd a)%nat.

(** A counter is well formed: distinct keys, positive counts. *)
Record counter_ok (cnt : list (string * nat)) : Prop := mkCounterOk
  { counter_keys_nodup : NoDup (map fst cnt);
    counter_positive : Forall (fun kn => (0 < snd kn)%nat) cnt }.

(** An injective stand-in for the digest, for the closed instances. *)
Definition sample_digest (s : string) : string := "sha256:" ++ s.

(** ** The rest of the database layer *)

(** The rows of a [GROUP BY] in the order of their keys. *)
Fixpoint insert_key (x : string * nat) (l : list (string * nat))
  : list (string * nat) :=
  match l with
  | [] => [x]
  | y :: l' => if (fst x <=? fst y)%string then x :: l else y :: insert_key x l'
  end.

Definition sort_by_key (l : list (string * nat)) : list (string * nat) :=
  fold_right insert_key [] l.

(** [SELECT status FROM patients WHERE status = 'Lahir di Sini' OR status =
    'Meninggal Dunia']: a NULL status satisfies neither comparison. *)
Definition select_life_status (d : database) : list string :=
  flat_map
    (fun p =>
       match p_status p with
       | None => []
       | Some s =>
           if (s =? "Lahir di Sini")%string || (s =? "Meninggal Dunia")%string
           then [s] else []
       end)
    (rows (patients d)).

(** [get_life_status_stats]: [GROUP BY status] with [COUNT( * )], one row
    [(status, jumlah)] per status that occurs. *)
Definition get_life_status_stats : M (list (string * nat)) :=
  fun c => Returns (sort_by_key (Counter (select_life_status (db c)))) c.

(** Whether a status cell holds the text [s]. *)
Definition status_is (s : string) (cell : option string) : bool :=
  match cell with
  | Some s' => (s' =? s)%string
  | None => false
  end.

(** How many patients have status [s]. *)
Definition count_status (s : string) (c : connection) : nat :=
  List.length
    (filter (fun p => status_is s (p_status p)) (rows (patients (db c)))).

(** One call of a writer, and any number of them in a row. *)
Inductive step (sha256_hexdigest : string -> string)
  : connection -> connection -> Prop :=
| step_init_db c :
    step sha256_hexdigest c (conn_of (init_db sha256_hexdigest c))
| step_add_patient c name dob gender diagnosis notes status handler now :
    step sha256_hexdigest c
      (conn_of (add_patient name dob gender diagnosis notes status handler
                  now c))
| step_add_visit c patient_id visit_date reason outcome progress tags now :
    step sha256_hexdigest c
      (conn_of (add_visit patient_id visit_date reason outcome progress tags
                  now c))
| step_update_patient_status c patient_id new_status handler :
    step sha256_hexdigest c
      (conn_of (update_patient_status patient_id new_status handler c)).

Inductive steps (sha256_hexdigest : string -> string)
  : connection -> connection -> Prop :=
| steps_refl c : steps sha256_hexdigest c c
| steps_cons c c' c'' :
    step sha256_hexdigest c c' -> steps sha256_hexdigest c' c'' ->
    steps sha256_hexdigest c c''.

(** The columns of a patient that no statement of the program assigns after
    the insert. *)
Definition frozen_columns (p : patient_row)
  : Z * string * string * option string * option string * option string
    * string :=
  (p_id p, p_name p, p_dob p, p_gender p, p_diagnosis p, p_notes p,
   p_created_at p).

(** The connections reached when [add_visit] is only ever called for a
    stored patient, as a page that picks the patient from the list does. *)
Inductive reachable_checked (sha256_hexdigest : string -> string)
  : connection -> Prop :=
| checked_first_run :
    reachable_checked sha256_hexdigest (first_run sha256_hexdigest)
| checked_init_db c :
    reachable_checked sha256_hexdigest c ->
    reachable_checked sha256_hexdigest (conn_of (init_db sha256_hexdigest c))
| checked_add_patient c name dob gender diagnosis notes status handler now :
    reachable_checked sha256_hexdigest c ->
    reachable_checked sha256_hexdigest
      (conn_of (add_patient name dob gender diagnosis notes status handler
                  now c))
| checked_add_visit c patient_id visit_date reason outcome progress tags now :
    reachable_checked sha256_hexdigest c ->
    patient_exists patient_id c = true ->
    reachable_checked sha256_hexdigest
      (conn_of (add_visit patient_id visit_date reason outcome progress tags
                  now c))
| checked_update_patient_status c patient_id new_status handler :
    reachable_checked sha256_hexdigest c ->
    reachable_checked sha256_hexdigest
      (conn_of (update_patient_status patient_id new_status handler c)).

(** A date of the years with four digits. *)
Definition valid_date (d : date) : Prop :=
  1000 <= year d <= 9999 /\ 1 <= month d <= 12 /\ 1 <= day d <= 31.


(** A character between the space and the tilde. *)
Definition printable (c : ascii) : bool :=
  (32 <=? N_of_ascii c)%N && (N_of_ascii c <=? 126)%N.

Fixpoint all_chars (P : ascii -> bool) (s : string) : bool :=
  match s with
  | EmptyString => true
  | String c s' => P c && all_chars P s'
  end.

(** * Properties *)

(** ** Strings *)

Lemma append_assoc (s1 s2 s3 : string) : (s1 ++ s2) ++ s3 = s1 ++ (s2 ++ s3).
Proof.
  induction s1 as [|c s1 IH]; simpl; [reflexivity | now rewrite IH].
Qed.

Lemma length_append (s1 s2 : string) :
  String.length (s1 ++ s2) = (String.length s1 + String.length s2)%nat.
Proof.
  induction s1 as [|c s1 IH]; simpl; [reflexivity | now rewrite IH].
Qed.

(** ** The JSON round trip *)

(** The scanner reads the escape of a character back as that character. *)
Lemma scanstring_escape_char (c : ascii) (t : string) :
  scanstring (escape_char c ++ t) = cons_decoded c (scanstring t).
Proof.
  destruct c as [[] [] [] [] [] [] [] []]; reflexivity.
Qed.

Lemma scanstring_escape_body (s rest : string) :
  scanstring (escape_body s ++ String quote_char rest) = Some (s, rest).
Proof.
  induction s as [|c s IH].
  - reflexivity.
  - cbn [escape_body]. rewrite append_assoc, scanstring_escape_char, IH.
    reflexivity.
Qed.

Lemma encode_append (x rest : string) :
  encode_basestring_ascii x ++ rest
  = String quote_char (escape_body x ++ String quote_char rest).
Proof.
  unfold encode_basestring_ascii. cbn [append]. now rewrite append_assoc.
Qed.

(** A non-empty item list starts with the quote of its first string. *)
Lemma dumps_items_cons (x : string) (l : list string) (rest : string) :
  exists t, dumps_items (x :: l) ++ rest = String quote_char t.
Proof.
  destruct l as [|y l]; cbn [dumps_items].
  - rewrite encode_append. eauto.
  - rewrite append_assoc, encode_append. eauto.
Qed.

Lemma skip_ws_quote (t : string) :
  skip_ws (String quote_char t) = String quote_char t.
Proof. reflexivity. Qed.

Lemma JSONArray_items_dumps (l : list string) :
  forall (x : string) (rest : string) (fuel : nat),
    (List.length l < fuel)%nat ->
    JSONArray_items fuel (dumps_items (x :: l) ++ String "]" rest)
    = Some (x :: l, rest).
Proof.
  induction l as [|y l IH]; intros x rest fuel Hfuel.
  - destruct fuel as [|fuel]; [inversion Hfuel|].
    cbn [dumps_items]. rewrite encode_append.
    cbn [JSONArray_items]. change (quote_char =? quote_char)%char with true.
    cbv iota. rewrite scanstring_escape_body. reflexivity.
  - destruct fuel as [|fuel]; [inversion Hfuel|].
    cbn [List.length] in Hfuel.
    change (dumps_items (x :: y :: l))
      with (encode_basestring_ascii x ++ ", " ++ dumps_items (y :: l)).
    rewrite append_assoc, encode_append.
    cbn [JSONArray_items]. change (quote_char =? quote_char)%char with true.
    cbv iota. rewrite scanstring_escape_body.
    rewrite append_assoc.
    change (skip_ws ((", " ++ dumps_items (y :: l) ++ String "]" rest)))
      with (String "," (String " " (dumps_items (y :: l) ++ String "]" rest))).
    cbv iota.
    change (("," =? "]")%char) with false.
    change (("," =? ",")%char) with true. cbv iota.
    change (skip_ws (String " " (dumps_items (y :: l) ++ String "]" rest)))
      with (skip_ws (dumps_items (y :: l) ++ String "]" rest)).
    destruct (dumps_items_cons y l (String "]" rest)) as [t Ht].
    rewrite Ht, skip_ws_quote, <- Ht.
    rewrite (IH y rest fuel) by lia. reflexivity.
Qed.

Lemma dumps_items_length (l : list string) (x : string) :
  (List.length l < String.length (dumps_items (x :: l)))%nat.
Proof.
  revert x. induction l as [|y l IH]; intros x.
  - cbn. lia.
  - change (dumps_items (x :: y :: l))
      with (encode_basestring_ascii x ++ ", " ++ dumps_items (y :: l)).
    rewrite !length_append. specialize (IH y).
    change (String.length ", ") with 2%nat. cbn [List.length]. lia.
Qed.

(** [json.loads] gives back the list that [json.dumps] was given. *)
Lemma json_loads_dumps (tags : list string) :
  json_loads (json_dumps tags) = Some tags.
Proof.
  destruct tags as [|x l].
  - reflexivity.
  - unfold json_dumps, json_loads.
    change (skip_ws ("[" ++ dumps_items (x :: l) ++ "]"))
      with (String "[" (dumps_items (x :: l) ++ "]")).
    cbv iota. change (("[" =? "[")%char) with true. cbv iota.
    unfold JSONArray.
    destruct (dumps_items_cons x l "]") as [t Ht].
    rewrite Ht, skip_ws_quote.
    change ((quote_char =? "]")%char) with false. cbv iota.
    rewrite <- Ht.
    rewrite JSONArray_items_dumps.
    + reflexivity.
    + rewrite length_append. pose proof (dumps_items_length l x). lia.
Qed.

(** Only the empty list is written as ["[]"]. *)
Lemma json_dumps_nonempty (x : string) (l : list string) :
  (json_dumps (x :: l) =? "[]")%string = false.
Proof.
  unfold json_dumps.
  destruct (dumps_items_cons x l "]") as [t Ht]. rewrite Ht. reflexivity.
Qed.

(** ** What each operation does to the connection *)

Lemma find_none_existsb {A : Type} (f : A -> bool) (l : list A) :
  find f l = None <-> existsb f l = false.
Proof.
  induction l as [|a l IH]; simpl; [tauto|].
  destruct (f a); simpl; [split; discriminate | exact IH].
Qed.

Lemma existsb_filter_nil {A : Type} (f : A -> bool) (l : list A) :
  existsb f l = false <-> filter f l = [].
Proof.
  induction l as [|a l IH]; simpl; [tauto|].
  destruct (f a); simpl; [split; discriminate | exact IH].
Qed.

Lemma connection_eta (c : connection) :
  mkConn (foreign_keys c)
    (mkDb (users (db c)) (patients (db c)) (visits (db c)) (documents (db c)))
    (file c)
  = c.
Proof. destruct c as [fk [u p v d] f]; reflexivity. Qed.

(** A commit changes nothing on a connection that has nothing pending. *)
Lemma commit_clean (c : connection) :
  file c = db c -> conn_of (commit c) = c.
Proof.
  destruct c as [fk d f]. cbn. intros H. now subst.
Qed.

Section Operations.

Variable sha256_hexdigest : string -> string.

(** The seed insert is skipped when an admin row is there: the run does
    nothing but commit. *)
Lemma init_db_seeded (c : connection) (row : user_row) :
  find (fun u => (u_username u =? "admin")%string) (rows (users (db c)))
  = Some row ->
  init_db sha256_hexdigest c = Returns tt (conn_of (commit c)).
Proof.
  intros H. unfold init_db, bind, select_user, commit, ret.
  rewrite H. reflexivity.
Qed.

Lemma init_db_unseeded (c : connection) :
  find (fun u => (u_username u =? "admin")%string) (rows (users (db c)))
  = None ->
  init_db sha256_hexdigest c
  = Returns tt
      (mkConn (foreign_keys c)
         (set_users (db c)
            (append_row
               (fun i => mkUser i "admin"
                           (hash_password sha256_hexdigest "admin123"))
               (users (db c))))
         (set_users (db c)
            (append_row
               (fun i => mkUser i "admin"
                           (hash_password sha256_hexdigest "admin123"))
               (users (db c))))).
Proof.
  intros H. unfold init_db, bind, select_user, commit, ret, insert_user.
  rewrite H. apply find_none_existsb in H. rewrite H. reflexivity.
Qed.

(** [init_db] never raises. *)
Lemma init_db_returns (c : connection) :
  init_db sha256_hexdigest c
  = Returns tt (conn_of (init_db sha256_hexdigest c)).
Proof.
  destruct (find (fun u => (u_username u =? "admin")%string)
              (rows (users (db c)))) as [row|] eqn:H.
  - now rewrite (init_db_seeded c row H).
  - now rewrite (init_db_unseeded c H).
Qed.

End Operations.

Lemma add_patient_duplicate name dob gender diagnosis notes status handler now
    (c : connection) :
  existsb (fun p => (p_name p =? name)%string
                    && (p_dob p =? strftime_ymd dob)%string)
    (rows (patients (db c))) = true ->
  add_patient name dob gender diagnosis notes status handler now c
  = Returns false c.
Proof.
  intros H.
  unfold add_patient, try_except_IntegrityError, bind, insert_patient.
  rewrite H. reflexivity.
Qed.

Lemma add_patient_fresh name dob gender diagnosis notes status handler now
    (c : connection) :
  existsb (fun p => (p_name p =? name)%string
                    && (p_dob p =? strftime_ymd dob)%string)
    (rows (patients (db c))) = false ->
  add_patient name dob gender diagnosis notes status handler now c
  = Returns true
      (mkConn (foreign_keys c)
         (set_patients (db c)
            (append_row
               (fun i => mkPatient i name (strftime_ymd dob) gender diagnosis
                           notes status handler now)
               (patients (db c))))
         (set_patients (db c)
            (append_row
               (fun i => mkPatient i name (strftime_ymd dob) gender diagnosis
                           notes status handler now)
               (patients (db c))))).
Proof.
  intros H.
  unfold add_patient, try_except_IntegrityError, bind, insert_patient.
  rewrite H. reflexivity.
Qed.

(** Without the pragma the insert of a visit looks at no other table. *)
Lemma add_visit_pragma_off patient_id visit_date reason outcome progress tags
    now (c : connection) :
  foreign_keys c = false ->
  add_visit patient_id visit_date reason outcome progress tags now c
  = Returns (seq (visits (db c)) + 1)
      (mkConn false
         (set_visits (db c)
            (append_row
               (fun i => mkVisit i patient_id (strftime_ymd visit_date) reason
                           outcome progress (Some (json_dumps tags)) now)
               (visits (db c))))
         (set_visits (db c)
            (append_row
               (fun i => mkVisit i patient_id (strftime_ymd visit_date) reason
                           outcome progress (Some (json_dumps tags)) now)
               (visits (db c))))).
Proof.
  intros H. unfold add_visit, bind, insert_visit, commit, ret.
  rewrite H. reflexivity.
Qed.

(** With the pragma on, the same call on an unknown patient raises and
    writes nothing: the behaviour the schema's REFERENCES clause asks for. *)
Lemma add_visit_pragma_on_unknown patient_id visit_date reason outcome
    progress tags now (c : connection) :
  foreign_keys c = true ->
  patient_exists patient_id c = false ->
  add_visit patient_id visit_date reason outcome progress tags now c
  = Raises IntegrityError c.
Proof.
  intros H1 H2. unfold add_visit, bind, insert_visit.
  unfold patient_exists in H2. rewrite H1, H2. reflexivity.
Qed.

Lemma add_visit_known patient_id visit_date reason outcome progress tags
    now (c : connection) :
  patient_exists patient_id c = true ->
  add_visit patient_id visit_date reason outcome progress tags now c
  = Returns (seq (visits (db c)) + 1)
      (mkConn (foreign_keys c)
         (set_visits (db c)
            (append_row
               (fun i => mkVisit i patient_id (strftime_ymd visit_date) reason
                           outcome progress (Some (json_dumps tags)) now)
               (visits (db c))))
         (set_visits (db c)
            (append_row
               (fun i => mkVisit i patient_id (strftime_ymd visit_date) reason
                           outcome progress (Some (json_dumps tags)) now)
               (visits (db c))))).
Proof.
  intros H. unfold add_visit, bind, insert_visit, commit, ret.
  unfold patient_exists in H. rewrite H, andb_false_r. reflexivity.
Qed.

Lemma update_patient_status_eq patient_id new_status handler (c : connection) :
  fits_int64 patient_id = true ->
  update_patient_status patient_id new_status handler c
  = Returns tt
      (mkConn (foreign_keys c)
         (set_patients (db c)
            (mkTable
               (map (set_status new_status handler patient_id)
                  (rows (patients (db c))))
               (seq (patients (db c)))))
         (set_patients (db c)
            (mkTable
               (map (set_status new_status handler patient_id)
                  (rows (patients (db c))))
               (seq (patients (db c)))))).
Proof.
  intros H. unfold update_patient_status, bind, update_status_stmt.
  rewrite H. reflexivity.
Qed.

(** An id that does not fit 64 bits: the binding raises and nothing is
    written. *)
Lemma update_patient_status_overflow patient_id new_status handler
    (c : connection) :
  fits_int64 patient_id = false ->
  update_patient_status patient_id new_status handler c
  = Raises OverflowError c.
Proof.
  intros H. unfold update_patient_status, bind, update_status_stmt.
  rewrite H. reflexivity.
Qed.

Lemma set_status_idempotent new_status handler patient_id (p : patient_row) :
  set_status new_status handler patient_id
    (set_status new_status handler patient_id p)
  = set_status new_status handler patient_id p.
Proof.
  unfold set_status. destruct (p_id p =? patient_id) eqn:E; cbn [p_id].
  - rewrite E. reflexivity.
  - rewrite E. reflexivity.
Qed.

Lemma set_status_other new_status handler patient_id (p : patient_row) :
  p_id p <> patient_id ->
  set_status new_status handler patient_id p = p.
Proof.
  intros H. unfold set_status.
  destruct (Z.eqb_spec (p_id p) patient_id); [contradiction | reflexivity].
Qed.

Lemma set_status_key new_status handler patient_id (p : patient_row) :
  p_id (set_status new_status handler patient_id p) = p_id p
  /\ p_name (set_status new_status handler patient_id p) = p_name p
  /\ p_dob (set_status new_status handler patient_id p) = p_dob p.
Proof.
  unfold set_status. destruct (p_id p =? patient_id); auto.
Qed.

(** ** Invariants of the reachable connections *)

Lemma count_patients_append name dob (c : connection) fk mk f :
  count_patients name dob
    (mkConn fk (set_patients (db c) (append_row mk (patients (db c)))) f)
  = (count_patients name dob c
     + (if (p_name (mk (seq (patients (db c)) + 1)%Z) =? name)%string
           && (p_dob (mk (seq (patients (db c)) + 1)%Z) =? dob)%string
        then 1 else 0))%nat.
Proof.
  unfold count_patients. cbn [db patients set_patients append_row rows].
  rewrite filter_app, length_app. cbn [filter].
  destruct (_ && _); reflexivity.
Qed.

Lemma count_patients_set_status name dob new_status handler patient_id
    (l : list patient_row) :
  filter (fun p => (p_name p =? name)%string && (p_dob p =? dob)%string)
    (map (set_status new_status handler patient_id) l)
  = map (set_status new_status handler patient_id)
      (filter (fun p => (p_name p =? name)%string && (p_dob p =? dob)%string)
         l).
Proof.
  induction l as [|p l IH]; [reflexivity|]. cbn [map filter].
  destruct (set_status_key new_status handler patient_id p) as (_ & Hn & Hd).
  rewrite Hn, Hd.
  destruct (_ && _); cbn [map]; now rewrite IH.
Qed.

Lemma map_id_set_status new_status handler patient_id (l : list patient_row) :
  map p_id (map (set_status new_status handler patient_id) l) = map p_id l.
Proof.
  rewrite map_map. apply map_ext. intros p.
  apply (set_status_key new_status handler patient_id p).
Qed.

Section Invariants.

Variable sha256_hexdigest : string -> string.

Lemma first_run_consistent :
  consistent sha256_hexdigest (first_run sha256_hexdigest).
Proof.
  constructor; cbn; try reflexivity; auto using NoDup_nil.
Qed.

Lemma init_db_consistent (c : connection) :
  consistent sha256_hexdigest c ->
  init_db sha256_hexdigest c = Returns tt c.
Proof.
  intros H.
  rewrite (init_db_seeded sha256_hexdigest c
             (mkUser 1 "admin" (hash_password sha256_hexdigest "admin123"))).
  - now rewrite (commit_clean c (cons_committed _ _ H)).
  - rewrite (cons_users _ _ H). reflexivity.
Qed.

Lemma add_patient_consistent name dob gender diagnosis notes status handler
    now (c : connection) :
  consistent sha256_hexdigest c ->
  consistent sha256_hexdigest
    (conn_of (add_patient name dob gender diagnosis notes status handler now
                c)).
Proof.
  intros H.
  destruct (existsb (fun p => (p_name p =? name)%string
                              && (p_dob p =? strftime_ymd dob)%string)
              (rows (patients (db c)))) eqn:E.
  - rewrite add_patient_duplicate by exact E. exact H.
  - rewrite add_patient_fresh by exact E. cbn [conn_of].
    destruct H as [Hfk Hcm Hu Huniq Hids Hnd Htags].
    constructor; cbn [foreign_keys db file users visits set_patients]; auto.
    + intros name' dob'. rewrite count_patients_append. cbn [p_name p_dob].
      specialize (Huniq name' dob').
      destruct ((name =? name')%string && (strftime_ymd dob =? dob')%string)
        eqn:E'; [|lia].
      apply andb_true_iff in E'. destruct E' as [E1 E2].
      apply String.eqb_eq in E1. apply String.eqb_eq in E2. subst name' dob'.
      apply existsb_filter_nil in E. unfold count_patients. rewrite E.
      cbn. lia.
    + cbn [patients set_patients append_row rows seq]. apply Forall_app.
      split.
      * eapply Forall_impl; [|exact Hids]. cbn. intros; lia.
      * constructor; [cbn; lia | constructor].
    + cbn [patients set_patients append_row rows]. rewrite map_app.
      cbn [map p_id].
      apply NoDup_app; [exact Hnd | repeat constructor; intros [] | ].
      intros i Hi [Hj|[]]. subst i.
      apply in_map_iff in Hi. destruct Hi as (p & Hp & Hin).
      rewrite Forall_forall in Hids. specialize (Hids p Hin). lia.
Qed.

Lemma add_visit_consistent patient_id visit_date reason outcome progress
    tags now (c : connection) :
  consistent sha256_hexdigest c ->
  consistent sha256_hexdigest
    (conn_of (add_visit patient_id visit_date reason outcome progress tags
                now c)).
Proof.
  intros H. rewrite add_visit_pragma_off by apply (cons_fk _ _ H).
  cbn [conn_of]. destruct H as [Hfk Hcm Hu Huniq Hids Hnd Htags].
  constructor; cbn [foreign_keys db file users patients set_visits]; auto.
  cbn [visits append_row rows]. apply Forall_app. split; [exact Htags|].
  constructor; [|constructor]. exists tags. reflexivity.
Qed.

Lemma update_patient_status_consistent patient_id new_status handler
    (c : connection) :
  consistent sha256_hexdigest c ->
  consistent sha256_hexdigest
    (conn_of (update_patient_status patient_id new_status handler c)).
Proof.
  intros H. destruct (fits_int64 patient_id) eqn:F;
    [|now rewrite update_patient_status_overflow].
  rewrite update_patient_status_eq by exact F. cbn [conn_of].
  destruct H as [Hfk Hcm Hu Huniq Hids Hnd Htags].
  constructor;
    cbn [foreign_keys db file users patients visits set_patients rows seq];
    auto.
  - intros name dob. specialize (Huniq name dob).
    unfold count_patients in *. cbn [db patients set_patients rows].
    rewrite count_patients_set_status, length_map. exact Huniq.
  - rewrite Forall_forall in *. intros p Hp.
    apply in_map_iff in Hp. destruct Hp as (q & Hq & Hin). subst p.
    destruct (set_status_key new_status handler patient_id q) as (Hi & _).
    rewrite Hi. auto.
  - rewrite map_id_set_status. exact Hnd.
Qed.

(** Every reachable connection is consistent. *)
Lemma reachable_consistent (c : connection) :
  reachable sha256_hexdigest c -> consistent sha256_hexdigest c.
Proof.
  induction 1.
  - apply first_run_consistent.
  - now rewrite init_db_consistent.
  - now apply add_patient_consistent.
  - now apply add_visit_consistent.
  - now apply update_patient_status_consistent.
Qed.

End Invariants.

(** ** Visit Ledger: the reference to the patient *)

(** On every reachable connection [add_visit] returns, whatever the
    patient id, and the ledger has one more row. *)
Lemma add_visit_reachable sha patient_id visit_date reason outcome progress
    tags now (c : connection) :
  reachable sha c ->
  exists c',
    add_visit patient_id visit_date reason outcome progress tags now c
    = Returns (seq (visits (db c)) + 1) c'
    /\ List.length (rows (visits (db c')))
       = S (List.length (rows (visits (db c)))).
Proof.
  intros H. apply reachable_consistent in H.
  rewrite add_visit_pragma_off by apply (cons_fk _ _ H).
  eexists. split; [reflexivity|].
  cbn [db visits set_visits append_row rows]. rewrite length_app. cbn. lia.
Qed.

(** C1, as the code runs it: after the first run on a new file no patient
    has id 999, yet [add_visit] for patient 999 returns visit id 1 and the
    Visit Ledger goes from no row to one row.  No ForeignKeyError is raised:
    the connection never turns the [foreign_keys] pragma on. *)
Theorem add_visit_unknown_patient_is_stored (sha : string -> string) :
  patient_exists 999 (first_run sha) = false
  /\ List.length (rows (visits (db (first_run sha)))) = 0%nat
  /\ exists c',
       add_visit 999 (mkDate 2024 2 29) (Some "Kontrol") (Some "Stabil")
         (Some "Membaik") ["EKG"] "2024-02-29 08:00:00" (first_run sha)
       = Returns 1 c'
       /\ List.length (rows (visits (db c'))) = 1%nat.
Proof.
  split; [reflexivity|]. split; [reflexivity|].
  eexists. split; reflexivity.
Qed.

(** ** Patient Registry: registration *)

(** C2: on a reachable connection, two registrations of the same
    (name, dob) pair leave exactly one Patient with that pair.  When the pair
    is not stored yet, the first call returns [True] and appends the record
    under an id no Patient has; the second call returns [False] (the
    IntegrityError is caught) and leaves the connection as it was. *)
Theorem add_patient_twice sha (c : connection) name dob
    gender diagnosis notes status handler now
    gender' diagnosis' notes' status' handler' now' :
  reachable sha c ->
  (count_patients name (strftime_ymd dob) c = 0%nat ->
     add_patient name dob gender diagnosis notes status handler now c
     = Returns true
         (conn_of (add_patient name dob gender diagnosis notes status handler
                     now c))
     /\ rows (patients (db (conn_of (add_patient name dob gender diagnosis
                                       notes status handler now c))))
        = (rows (patients (db c))
             ++ [mkPatient (seq (patients (db c)) + 1) name (strftime_ymd dob)
                   gender diagnosis notes status handler now])%list
     /\ patient_exists (seq (patients (db c)) + 1) c = false)
  /\ add_patient name dob gender' diagnosis' notes' status' handler' now'
       (conn_of (add_patient name dob gender diagnosis notes status handler
                   now c))
     = Returns false
         (conn_of (add_patient name dob gender diagnosis notes status handler
                     now c))
  /\ count_patients name (strftime_ymd dob)
       (conn_of
          (add_patient name dob gender' diagnosis' notes' status' handler'
             now'
             (conn_of (add_patient name dob gender diagnosis notes status
                         handler now c))))
     = 1%nat.
Proof.
  intros Hreach. pose proof (reachable_consistent sha c Hreach) as Hc.
  set (key := fun p => (p_name p =? name)%string
                       && (p_dob p =? strftime_ymd dob)%string).
  assert (Hsecond :
    forall c1, existsb key (rows (patients (db c1))) = true ->
      add_patient name dob gender' diagnosis' notes' status' handler' now' c1
      = Returns false c1).
  { intros c1 H1. now apply add_patient_duplicate. }
  destruct (existsb key (rows (patients (db c)))) eqn:E.
  - (* the pair is stored: both calls are refused *)
    rewrite (add_patient_duplicate name dob gender diagnosis notes status
               handler now c E). cbn [conn_of].
    rewrite (Hsecond c E). cbn [conn_of].
    split; [|split; [reflexivity|]].
    + intros H0. unfold count_patients in H0.
      apply length_zero_iff_nil in H0. apply existsb_filter_nil in H0.
      fold key in H0. congruence.
    + pose proof (cons_unique _ _ Hc name (strftime_ymd dob)) as Hle.
      assert (count_patients name (strftime_ymd dob) c <> 0%nat); [|lia].
      intros H0. unfold count_patients in H0.
      apply length_zero_iff_nil in H0. apply existsb_filter_nil in H0.
      fold key in H0. congruence.
  - (* the pair is new: the first call inserts, the second is refused *)
    rewrite (add_patient_fresh name dob gender diagnosis notes status
               handler now c E). cbn [conn_of].
    match goal with |- context [Returns true ?x] => set (c1 := x) end.
    assert (E1 : existsb key (rows (patients (db c1))) = true).
    { subst c1. cbn [db patients set_patients append_row rows].
      rewrite existsb_app. cbn [existsb]. subst key. cbn [p_name p_dob].
      rewrite !String.eqb_refl. apply orb_true_iff. right. reflexivity. }
    rewrite (Hsecond c1 E1). cbn [conn_of].
    split; [|split; [reflexivity|]].
    + intros _. split; [reflexivity|]. split; [reflexivity|].
      unfold patient_exists. apply not_true_is_false. intros Hex.
      apply existsb_exists in Hex. destruct Hex as (p & Hin & Hp).
      apply Z.eqb_eq in Hp. pose proof (cons_ids _ _ Hc) as Hids.
      rewrite Forall_forall in Hids. specialize (Hids p Hin). lia.
    + subst c1. rewrite count_patients_append. cbn [p_name p_dob].
      rewrite !String.eqb_refl. cbn [andb].
      apply existsb_filter_nil in E. unfold count_patients. fold key.
      rewrite E. reflexivity.
Qed.

Lemma add_patient_twice_witness :
  reachable sample_digest (first_run sample_digest)
  /\ count_patients "Siti" "1990-05-17" (first_run sample_digest) = 0%nat
  /\ value_of
       (add_patient "Siti" (mkDate 1990 5 17) (Some "Perempuan") None None
          (Some "Hidup") None "2024-01-01 09:00:00" (first_run sample_digest))
     = Some true
  /\ value_of
       (add_patient "Siti" (mkDate 1990 5 17) (Some "Perempuan") None None
          (Some "Hidup") None "2024-01-02 09:00:00"
          (conn_of
             (add_patient "Siti" (mkDate 1990 5 17) (Some "Perempuan") None
                None (Some "Hidup") None "2024-01-01 09:00:00"
                (first_run sample_digest))))
     = Some false
  /\ count_patients "Siti" "1990-05-17"
       (conn_of
          (add_patient "Siti" (mkDate 1990 5 17) (Some "Perempuan") None None
             (Some "Hidup") None "2024-01-02 09:00:00"
             (conn_of
                (add_patient "Siti" (mkDate 1990 5 17) (Some "Perempuan")
                   None None (Some "Hidup") None "2024-01-01 09:00:00"
                   (first_run sample_digest)))))
     = 1%nat.
Proof.
  destruct (add_patient_twice sample_digest (first_run sample_digest) "Siti"
              (mkDate 1990 5 17) (Some "Perempuan") None None (Some "Hidup")
              None "2024-01-01 09:00:00" (Some "Perempuan") None None
              (Some "Hidup") None "2024-01-02 09:00:00"
              (reach_first_run sample_digest))
    as (Hfirst & Hsecond & Hcount).
  destruct (Hfirst eq_refl) as (Hreturn & _).
  split; [apply reach_first_run|]. split; [reflexivity|].
  split; [exact (f_equal value_of Hreturn)|].
  split; [exact (f_equal value_of Hsecond) | exact Hcount].
Defined.

(** ** Patient Registry: status updates *)

Lemma table_eta {R : Type} (t : table R) : mkTable (rows t) (seq t) = t.
Proof. destruct t; reflexivity. Qed.

Lemma update_patient_status_twice patient_id new_status handler
    (c : connection) :
  conn_of (update_patient_status patient_id new_status handler
             (conn_of (update_patient_status patient_id new_status handler c)))
  = conn_of (update_patient_status patient_id new_status handler c).
Proof.
  destruct (fits_int64 patient_id) eqn:F.
  - rewrite !update_patient_status_eq by exact F. cbn [conn_of].
    cbn [foreign_keys db users patients visits documents set_patients rows
         seq].
    rewrite map_map.
    rewrite (map_ext _ _ (set_status_idempotent new_status handler patient_id)).
    reflexivity.
  - now rewrite !update_patient_status_overflow by exact F.
Qed.

(** C5: for a patient id that fits a rowid, as the id of every stored
    patient does, no call of [update_patient_status] raises; and any number
    of further calls with the same patient, status and handler leaves the
    connection the first call left. *)
Theorem update_patient_status_idempotent patient_id new_status handler
    (c : connection) (n : nat) :
  (fits_int64 patient_id = true ->
   update_patient_status patient_id new_status handler
     (repeat_stmt n (update_patient_status patient_id new_status handler) c)
   = Returns tt
       (repeat_stmt (S n)
          (update_patient_status patient_id new_status handler) c))
  /\ repeat_stmt (S n) (update_patient_status patient_id new_status handler) c
     = conn_of (update_patient_status patient_id new_status handler c).
Proof.
  revert c. induction n as [|n IH]; intros c.
  - split; [|reflexivity]. intros F. cbn [repeat_stmt].
    rewrite update_patient_status_eq by exact F. reflexivity.
  - destruct (IH (conn_of (update_patient_status patient_id new_status
                             handler c))) as [IH1 IH2].
    split.
    + exact IH1.
    + change (repeat_stmt (S (S n))
                (update_patient_status patient_id new_status handler) c)
        with (repeat_stmt (S n)
                (update_patient_status patient_id new_status handler)
                (conn_of (update_patient_status patient_id new_status
                            handler c))).
      rewrite IH2. apply update_patient_status_twice.
Qed.

Lemma update_patient_status_idempotent_witness :
  fits_int64 1 = true
  /\ value_of
       (update_patient_status 1 (Some "Meninggal Dunia") (Some "admin")
          (repeat_stmt 2
             (update_patient_status 1 (Some "Meninggal Dunia") (Some "admin"))
             (conn_of
                (add_patient "Siti" (mkDate 1990 5 17) None None None
                   (Some "Hidup") None "t1" (first_run sample_digest)))))
     = Some tt
  /\ map p_status
       (rows (patients (db
          (repeat_stmt 3
             (update_patient_status 1 (Some "Meninggal Dunia") (Some "admin"))
             (conn_of
                (add_patient "Siti" (mkDate 1990 5 17) None None None
                   (Some "Hidup") None "t1" (first_run sample_digest)))))))
     = [Some "Meninggal Dunia"].
Proof.
  assert (F : fits_int64 1 = true) by reflexivity.
  split; [exact F|].
  destruct (update_patient_status_idempotent 1 (Some "Meninggal Dunia")
              (Some "admin")
              (conn_of
                 (add_patient "Siti" (mkDate 1990 5 17) None None None
                    (Some "Hidup") None "t1" (first_run sample_digest)))
              2) as [Hret Hsame].
  split.
  - rewrite (Hret F). reflexivity.
  - rewrite Hsame. reflexivity.
Defined.

(** C10, as the code runs it: with one patient stored under id 1, the id
    2^63 is an id that no Patient has, and [update_patient_status] for it
    does not return: binding the id raises [OverflowError]. *)
Lemma update_patient_status_unknown_id_counterexample :
  patient_exists (2 ^ 63)
    (conn_of
       (add_patient "Siti" (mkDate 1990 5 17) None None None (Some "Hidup")
          None "t1" (first_run sample_digest)))
  = false
  /\ update_patient_status (2 ^ 63) (Some "Meninggal Dunia") (Some "admin")
       (conn_of
          (add_patient "Siti" (mkDate 1990 5 17) None None None
             (Some "Hidup") None "t1" (first_run sample_digest)))
     = Raises OverflowError
         (conn_of
            (add_patient "Siti" (mkDate 1990 5 17) None None None
               (Some "Hidup") None "t1" (first_run sample_digest)))
  /\ ~ (exists c',
         update_patient_status (2 ^ 63) (Some "Meninggal Dunia")
           (Some "admin")
           (conn_of
              (add_patient "Siti" (mkDate 1990 5 17) None None None
                 (Some "Hidup") None "t1" (first_run sample_digest)))
         = Returns tt c').
Proof.
  split; [reflexivity|]. split; [reflexivity|].
  intros [c' H].
  change (update_patient_status (2 ^ 63) (Some "Meninggal Dunia")
            (Some "admin")
            (conn_of
               (add_patient "Siti" (mkDate 1990 5 17) None None None
                  (Some "Hidup") None "t1" (first_run sample_digest))))
    with (@Raises unit OverflowError
            (conn_of
               (add_patient "Siti" (mkDate 1990 5 17) None None None
                  (Some "Hidup") None "t1" (first_run sample_digest)))) in H.
  discriminate H.
Qed.

Lemma map_set_status_unknown new_status handler patient_id
    (l : list patient_row) :
  existsb (fun p => p_id p =? patient_id) l = false ->
  map (set_status new_status handler patient_id) l = l.
Proof.
  induction l as [|p l IH]; [reflexivity|]. cbn [existsb map].
  intros H. apply orb_false_iff in H. destruct H as [Hp Hl].
  rewrite IH by exact Hl. rewrite set_status_other; [reflexivity|].
  intros Heq. apply Z.eqb_neq in Hp. contradiction.
Qed.

(** C10, amended: for a patient id that fits 64 bits and that no Patient
    has, [update_patient_status] returns normally and does nothing but
    commit: every patient record, and all else the connection sees, is as it
    was, and a connection with nothing uncommitted is returned unchanged. *)
Theorem update_patient_status_unknown_id patient_id new_status handler
    (c : connection) :
  fits_int64 patient_id = true ->
  patient_exists patient_id c = false ->
  update_patient_status patient_id new_status handler c
  = Returns tt (conn_of (commit c))
  /\ db (conn_of (update_patient_status patient_id new_status handler c))
     = db c
  /\ (file c = db c ->
      update_patient_status patient_id new_status handler c = Returns tt c).
Proof.
  intros F H.
  assert (Heq : update_patient_status patient_id new_status handler c
                = Returns tt (conn_of (commit c))).
  { rewrite update_patient_status_eq by exact F.
    rewrite (map_set_status_unknown _ _ _ _ H), table_eta.
    unfold set_patients. destruct c as [fk [u p v d] f]. reflexivity. }
  rewrite Heq. split; [reflexivity|]. split; [reflexivity|].
  intros Hc. now rewrite (commit_clean c Hc).
Qed.

Lemma update_patient_status_unknown_id_witness :
  fits_int64 7 = true
  /\ patient_exists 7
       (conn_of
          (add_patient "Siti" (mkDate 1990 5 17) None None None
             (Some "Hidup") None "t1" (first_run sample_digest)))
     = false
  /\ update_patient_status 7 (Some "Meninggal Dunia") (Some "admin")
       (conn_of
          (add_patient "Siti" (mkDate 1990 5 17) None None None
             (Some "Hidup") None "t1" (first_run sample_digest)))
     = Returns tt
         (conn_of
            (add_patient "Siti" (mkDate 1990 5 17) None None None
               (Some "Hidup") None "t1" (first_run sample_digest)))
  /\ rows (patients (db
       (conn_of
          (update_patient_status 7 (Some "Meninggal Dunia") (Some "admin")
             (conn_of
                (add_patient "Siti" (mkDate 1990 5 17) None None None
                   (Some "Hidup") None "t1" (first_run sample_digest)))))))
     = [mkPatient 1 "Siti" "1990-05-17" None None None (Some "Hidup") None
          "t1"].
Proof.
  assert (F : fits_int64 7 = true) by reflexivity.
  assert (H : patient_exists 7
                (conn_of
                   (add_patient "Siti" (mkDate 1990 5 17) None None None
                      (Some "Hidup") None "t1" (first_run sample_digest)))
              = false) by reflexivity.
  destruct (update_patient_status_unknown_id 7 (Some "Meninggal Dunia")
              (Some "admin") _ F H) as (_ & Hdb & Hsame).
  split; [exact F|]. split; [exact H|]. split.
  - apply Hsame. reflexivity.
  - rewrite Hdb. reflexivity.
Defined.

(** ** Credential Store *)

Lemma login_user_eq sha username password (c : connection) :
  login_user sha username password c
  = Returns
      (match find (fun u => (u_username u =? username)%string)
               (rows (users (db c))) with
       | None => None
       | Some row => Some (verify_password sha (u_password_hash row) password)
       end) c.
Proof. reflexivity. Qed.

(** C6: right after the first run on a new file the Credential Store holds
    the one seeded row, admin with the digest of admin123, and
    [login_user] for admin with admin123 returns [True]. *)
Theorem login_admin_after_first_run (sha : string -> string) :
  rows (users (db (first_run sha)))
  = [mkUser 1 "admin" (hash_password sha "admin123")]
  /\ login_user sha "admin" "admin123" (first_run sha)
     = Returns (Some true) (first_run sha).
Proof.
  split; [reflexivity|].
  rewrite login_user_eq. cbn. unfold verify_password.
  rewrite String.eqb_refl. reflexivity.
Qed.

(** C7, as the code runs it: after the first run no user is called nobody,
    and [login_user] for nobody returns Python's [None], the value of
    [user] in [user and verify_password(...)], which is not [False]. *)
Lemma login_user_fails_counterexample :
  ~ In "nobody" (map u_username (rows (users (db (first_run sample_digest)))))
  /\ login_user sample_digest "nobody" "secret" (first_run sample_digest)
     = Returns None (first_run sample_digest)
  /\ login_user sample_digest "nobody" "secret" (first_run sample_digest)
     <> Returns (Some false) (first_run sample_digest).
Proof.
  split; [|split].
  - intros [H|[]]. discriminate H.
  - reflexivity.
  - change (login_user sample_digest "nobody" "secret"
              (first_run sample_digest))
      with (@Returns (option bool) None (first_run sample_digest)).
    discriminate.
Qed.

(** C7, amended: when no stored row of [username] carries the digest of
    [password], which covers both the absent username and the mismatch,
    [login_user] raises nothing, changes nothing and returns a value whose
    truth value is false: Python's [None] exactly when the username is
    absent, and [False] otherwise. *)
Theorem login_user_fails sha username password (c : connection) :
  (forall u, In u (rows (users (db c))) -> u_username u = username ->
             u_password_hash u <> hash_password sha password) ->
  exists v,
    login_user sha username password c = Returns v c
    /\ truthy v = false
    /\ (v = None <-> ~ In username (map u_username (rows (users (db c)))))
    /\ (v <> None -> v = Some false).
Proof.
  intros H. rewrite login_user_eq.
  destruct (find (fun u => (u_username u =? username)%string)
              (rows (users (db c)))) as [row|] eqn:E.
  - apply find_some in E. destruct E as [Hin Hname].
    apply String.eqb_eq in Hname.
    assert (Hv : verify_password sha (u_password_hash row) password = false).
    { unfold verify_password. apply String.eqb_neq. now apply H. }
    rewrite Hv. eexists. split; [reflexivity|]. split; [reflexivity|].
    split; [|reflexivity]. split; [discriminate|].
    intros Habs. exfalso. apply Habs. apply in_map_iff. eauto.
  - eexists. split; [reflexivity|]. split; [reflexivity|].
    split; [|intros Hn; now elim Hn]. split; [|reflexivity].
    intros _ Hin. apply in_map_iff in Hin. destruct Hin as (u & Hu & Hin).
    pose proof (find_none _ _ E u Hin) as Hf. cbn in Hf.
    rewrite Hu, String.eqb_refl in Hf. discriminate.
Qed.

Lemma login_user_fails_witness :
  (forall u, In u (rows (users (db (first_run sample_digest)))) ->
             u_username u = "admin" ->
             u_password_hash u <> hash_password sample_digest "wrong")
  /\ exists v,
       login_user sample_digest "admin" "wrong" (first_run sample_digest)
       = Returns v (first_run sample_digest)
       /\ truthy v = false
       /\ (v = None <->
           ~ In "admin"
               (map u_username (rows (users (db (first_run sample_digest))))))
       /\ (v <> None -> v = Some false).
Proof.
  assert (H : forall u,
             In u (rows (users (db (first_run sample_digest)))) ->
             u_username u = "admin" ->
             u_password_hash u <> hash_password sample_digest "wrong").
  { intros u [Hu|[]] _. subst u. cbn. discriminate. }
  split; [exact H|].
  exact (login_user_fails sample_digest "admin" "wrong"
           (first_run sample_digest) H).
Defined.

(** ** Initialization *)

Lemma count_users_find (username : string) (c : connection) :
  count_users username c = 0%nat
  <-> find (fun u => (u_username u =? username)%string) (rows (users (db c)))
      = None.
Proof.
  unfold count_users. rewrite length_zero_iff_nil, <- existsb_filter_nil.
  symmetry. apply find_none_existsb.
Qed.

(** C9: on a database with at most one admin row (the column is UNIQUE),
    any number of runs of [init_db] raises nothing and leaves exactly one
    admin row; the runs after the first change nothing; and when an admin
    row is already there a run does nothing but commit: the database the
    connection sees, and the stored digest in it, stays what it was, and a
    connection with nothing uncommitted is left unchanged. *)
Theorem init_db_seed_idempotent sha (c : connection) (n : nat) :
  (count_users "admin" c <= 1)%nat ->
  init_db sha (repeat_stmt n (init_db sha) c)
  = Returns tt (repeat_stmt (S n) (init_db sha) c)
  /\ count_users "admin" (repeat_stmt (S n) (init_db sha) c) = 1%nat
  /\ repeat_stmt (S n) (init_db sha) c = conn_of (init_db sha c)
  /\ (forall row,
        find (fun u => (u_username u =? "admin")%string) (rows (users (db c)))
        = Some row ->
        repeat_stmt (S n) (init_db sha) c = conn_of (commit c)
        /\ db (repeat_stmt (S n) (init_db sha) c) = db c
        /\ (file c = db c -> repeat_stmt (S n) (init_db sha) c = c))
  /\ (find (fun u => (u_username u =? "admin")%string) (rows (users (db c)))
      = None ->
      find (fun u => (u_username u =? "admin")%string)
        (rows (users (db (repeat_stmt (S n) (init_db sha) c))))
      = Some (mkUser (seq (users (db c)) + 1) "admin"
                (hash_password sha "admin123"))).
Proof.
  intros Hle.
  (* runs on a seeded connection with nothing pending are the identity *)
  assert (Hfix : forall k c0 row,
             find (fun u => (u_username u =? "admin")%string)
               (rows (users (db c0))) = Some row ->
             file c0 = db c0 ->
             repeat_stmt k (init_db sha) c0 = c0).
  { induction k as [|k IHk]; intros c0 row Hrow Hclean; [reflexivity|].
    cbn [repeat_stmt]. rewrite (init_db_seeded sha c0 row Hrow).
    rewrite (commit_clean c0 Hclean). now apply IHk with row. }
  (* on a seeded connection they do nothing but commit *)
  assert (Hcommit : forall k c0 row,
             find (fun u => (u_username u =? "admin")%string)
               (rows (users (db c0))) = Some row ->
             repeat_stmt (S k) (init_db sha) c0 = conn_of (commit c0)).
  { intros k c0 row Hrow. cbn [repeat_stmt].
    rewrite (init_db_seeded sha c0 row Hrow).
    apply (Hfix k (conn_of (commit c0)) row); [exact Hrow | reflexivity]. }
  assert (Hlast : forall k c0,
             repeat_stmt (S k) (init_db sha) c0
             = conn_of (init_db sha (repeat_stmt k (init_db sha) c0))).
  { induction k as [|k IHk]; intros c0; [reflexivity|].
    change (repeat_stmt (S (S k)) (init_db sha) c0)
      with (repeat_stmt (S k) (init_db sha) (conn_of (init_db sha c0))).
    rewrite IHk. reflexivity. }
  split.
  { rewrite Hlast. apply init_db_returns. }
  destruct (find (fun u => (u_username u =? "admin")%string)
              (rows (users (db c)))) as [row|] eqn:E.
  - rewrite (Hcommit n c row E), (init_db_seeded sha c row E). cbn [conn_of].
    split; [|split; [reflexivity|split; [|discriminate]]].
    + assert (count_users "admin" c <> 0%nat) as Hne.
      { intros H0. apply count_users_find in H0. congruence. }
      unfold count_users in *. cbn [commit conn_of db]. lia.
    + intros row' _. split; [reflexivity|]. split; [reflexivity|].
      apply commit_clean.
  - cbn [repeat_stmt]. rewrite (init_db_unseeded sha c E). cbn [conn_of].
    match goal with |- context [repeat_stmt n _ ?x] => set (c1 := x) end.
    assert (E1 : find (fun u => (u_username u =? "admin")%string)
                   (rows (users (db c1)))
                 = Some (mkUser (seq (users (db c)) + 1) "admin"
                           (hash_password sha "admin123"))).
    { subst c1. cbn [db users set_users append_row rows].
      clear - E. induction (rows (users (db c))) as [|u l IH].
      - reflexivity.
      - cbn [find app] in *. destruct (u_username u =? "admin")%string.
        + discriminate.
        + now apply IH. }
    rewrite (Hfix n c1 _ E1) by reflexivity.
    split; [|split; [reflexivity|split; [discriminate|intros _; exact E1]]].
    subst c1. unfold count_users.
    cbn [db users set_users append_row rows].
    rewrite filter_app, length_app.
    apply find_none_existsb in E. apply existsb_filter_nil in E.
    rewrite E. reflexivity.
Qed.

Lemma init_db_seed_idempotent_witness :
  (count_users "admin" (get_db_connection new_file) <= 1)%nat
  /\ count_users "admin"
       (repeat_stmt 3 (init_db sample_digest) (get_db_connection new_file))
     = 1%nat
  /\ (count_users "admin" (first_run sample_digest) <= 1)%nat
  /\ repeat_stmt 3 (init_db sample_digest) (first_run sample_digest)
     = first_run sample_digest.
Proof.
  assert (H0 : (count_users "admin" (get_db_connection new_file) <= 1)%nat)
    by (cbn; lia).
  assert (H1 : (count_users "admin" (first_run sample_digest) <= 1)%nat)
    by (cbn; lia).
  split; [exact H0|]. split.
  - apply (init_db_seed_idempotent sample_digest (get_db_connection new_file)
             2 H0).
  - split; [exact H1|].
    destruct (init_db_seed_idempotent sample_digest (first_run sample_digest)
                2 H1) as (_ & _ & _ & Hseeded & _).
    destruct (Hseeded
                (mkUser 1 "admin" (hash_password sample_digest "admin123"))
                eq_refl) as (_ & _ & Hsame).
    apply Hsame. reflexivity.
Defined.

(** ** Reporting Engine: the tag scan *)

(** The loop leaves the connection alone, and what it returns does not
    depend on the connection. *)
Lemma extend_all_conn (df : list string) :
  forall all_tags c, conn_of (extend_all df all_tags c) = c.
Proof.
  induction df as [|t df IH]; intros all_tags c; cbn [extend_all].
  - reflexivity.
  - destruct (json_loads t); [apply IH | reflexivity].
Qed.

Lemma extend_all_value (df : list string) :
  forall all_tags c c',
    value_of (extend_all df all_tags c) = value_of (extend_all df all_tags c').
Proof.
  induction df as [|t df IH]; intros all_tags c c'; cbn [extend_all].
  - reflexivity.
  - destruct (json_loads t); [apply IH | reflexivity].
Qed.


(** The rows that pass the filter of the scan. *)
Lemma select_tags_app (d : database) (v : visit_row) :
  select_tags (set_visits d (mkTable (rows (visits d) ++ [v])
                               (seq (visits d) + 1)))
  = (select_tags d
     ++ match v_tags v with
        | None => []
        | Some t => if (t =? "[]")%string then [] else [t]
        end)%list.
Proof.
  unfold select_tags. cbn [visits set_visits rows].
  rewrite flat_map_app. cbn [flat_map]. now rewrite app_nil_r.
Qed.

(** On a ledger whose cells were written by [json_dumps] the loop returns. *)
Lemma extend_all_stored (l : list visit_row) (c : connection) :
  Forall (fun v => exists tags, v_tags v = Some (json_dumps tags)) l ->
  forall all_tags,
  exists ts,
    extend_all
      (flat_map (fun v => match v_tags v with
                          | None => []
                          | Some t => if (t =? "[]")%string then [] else [t]
                          end) l)
      all_tags c
    = Returns ts c.
Proof.
  induction 1 as [|v l Hv Hl IH]; intros all_tags; cbn [flat_map].
  - eexists. reflexivity.
  - destruct Hv as [tags Hv]. rewrite Hv.
    destruct tags as [|x tags].
    + change ((json_dumps [] =? "[]")%string) with true. cbn [app]. apply IH.
    + rewrite json_dumps_nonempty. cbn [app extend_all].
      rewrite json_loads_dumps. apply IH.
Qed.

Lemma scan_all_tags_reachable sha (c : connection) :
  reachable sha c -> exists ts, scan_all_tags c = Returns ts c.
Proof.
  intros H. apply reachable_consistent in H.
  unfold scan_all_tags, select_tags.
  apply extend_all_stored. apply (cons_tags _ _ H).
Qed.




(** ** Reporting Engine: counting and sorting *)

Lemma counter_get_add (t t' : string) (cnt : list (string * nat)) :
  counter_get t' (counter_add t cnt)
  = (counter_get t' cnt + (if (t =? t')%string then 1 else 0))%nat.
Proof.
  induction cnt as [|[k n] cnt IH]; cbn [counter_add counter_get].
  - destruct (t =? t')%string; reflexivity.
  - destruct (String.eqb_spec k t) as [Hkt|Hkt]; cbn [counter_get].
    + subst k. destruct (t =? t')%string; lia.
    + rewrite IH. destruct (String.eqb_spec k t') as [Hkt'|Hkt']; [|reflexivity].
      subst k. destruct (String.eqb_spec t t'); [congruence | lia].
Qed.

Lemma counter_add_keys (t k : string) (cnt : list (string * nat)) :
  In k (map fst (counter_add t cnt)) -> k = t \/ In k (map fst cnt).
Proof.
  induction cnt as [|[k0 n] cnt IH]; cbn [counter_add map fst In].
  - intros [H|[]]; auto.
  - destruct (k0 =? t)%string; cbn [map fst In]; intros [H|H]; auto.
    destruct (IH H); auto.
Qed.

Lemma counter_add_nodup (t : string) (cnt : list (string * nat)) :
  NoDup (map fst cnt) -> NoDup (map fst (counter_add t cnt)).
Proof.
  induction cnt as [|[k n] cnt IH]; cbn [counter_add map fst]; intros H.
  - repeat constructor. intros [].
  - inversion H as [|? ? Hnotin Hnd]; subst.
    destruct (String.eqb_spec k t) as [Hkt|Hkt]; cbn [map fst].
    + constructor; assumption.
    + constructor; [|now apply IH].
      intros Hin. apply counter_add_keys in Hin. destruct Hin; congruence.
Qed.

Lemma counter_add_positive (t : string) (cnt : list (string * nat)) :
  Forall (fun kn => (0 < snd kn)%nat) cnt ->
  Forall (fun kn => (0 < snd kn)%nat) (counter_add t cnt).
Proof.
  induction 1 as [|[k n] cnt Hk Hcnt IH]; cbn [counter_add].
  - repeat constructor.
  - destruct (k =? t)%string; constructor; cbn [snd] in *; auto; lia.
Qed.

(** In a counter with distinct keys and positive counts, the rows are the
    graph of [counter_get] on its support. *)
Lemma counter_rows (cnt : list (string * nat)) (t : string) (n : nat) :
  NoDup (map fst cnt) ->
  Forall (fun kn => (0 < snd kn)%nat) cnt ->
  In (t, n) cnt <-> counter_get t cnt = n /\ (0 < n)%nat.
Proof.
  induction cnt as [|[k m] cnt IH]; cbn [map fst counter_get In];
    intros Hnd Hpos.
  - split; [intros [] | intros [H0 H1]; lia].
  - inversion Hnd as [|? ? Hnotin Hnd']; subst.
    inversion Hpos as [|? ? Hm Hpos']; subst. cbn [snd] in Hm.
    specialize (IH Hnd' Hpos').
    destruct (String.eqb_spec k t) as [Hkt|Hkt].
    + subst k. split.
      * intros [H|H]; [inversion H; subst; auto|].
        exfalso. apply Hnotin. apply in_map_iff. exists (t, n). auto.
      * intros [H0 H1]. left. now subst.
    + split.
      * intros [H|H]; [inversion H; congruence | now apply IH].
      * intros H. right. now apply IH.
Qed.

Lemma Counter_fold (l : list string) :
  forall cnt,
    counter_ok cnt ->
    counter_ok (fold_left (fun cnt t => counter_add t cnt) l cnt)
    /\ forall t,
         counter_get t (fold_left (fun cnt t => counter_add t cnt) l cnt)
         = (counter_get t cnt + count_occ string_dec l t)%nat.
Proof.
  induction l as [|x l IH]; intros cnt [Hnd Hpos]; cbn [fold_left count_occ].
  - split; [now constructor | intros; lia].
  - destruct (IH (counter_add x cnt)) as [Hok Hget].
    { constructor; [now apply counter_add_nodup
                   | now apply counter_add_positive]. }
    split; [exact Hok|]. intros t. rewrite Hget, counter_get_add.
    destruct (string_dec x t) as [Hxt|Hxt].
    + subst. rewrite String.eqb_refl. lia.
    + apply String.eqb_neq in Hxt. rewrite Hxt. lia.
Qed.

(** [Counter(l)] has one row per distinct tag of [l], with the number of its
    occurrences. *)
Lemma Counter_spec (l : list string) :
  NoDup (map fst (Counter l))
  /\ forall t n,
       In (t, n) (Counter l)
       <-> n = count_occ string_dec l t /\ (0 < n)%nat.
Proof.
  destruct (Counter_fold l []) as [[Hnd Hpos] Hget].
  { constructor; constructor. }
  split; [exact Hnd|]. intros t n. unfold Counter.
  rewrite (counter_rows _ t n Hnd Hpos), Hget. cbn [counter_get].
  intuition lia.
Qed.

Lemma insert_desc_perm (x : string * nat) (l : list (string * nat)) :
  Permutation (insert_desc x l) (x :: l).
Proof.
  induction l as [|y l IH]; cbn [insert_desc]; [reflexivity|].
  destruct (snd y <=? snd x)%nat; [reflexivity|].
  rewrite IH. apply perm_swap.
Qed.

Lemma sort_values_desc_perm (l : list (string * nat)) :
  Permutation (sort_values_desc l) l.
Proof.
  induction l as [|x l IH]; cbn [sort_values_desc fold_right]; [reflexivity|].
  fold (sort_values_desc l). rewrite insert_desc_perm. now constructor.
Qed.

Lemma insert_desc_sorted (x : string * nat) (l : list (string * nat)) :
  StronglySorted count_desc l -> StronglySorted count_desc (insert_desc x l).
Proof.
  induction 1 as [|y l Hl IH Hy]; cbn [insert_desc].
  - repeat constructor.
  - destruct (Nat.leb_spec (snd y) (snd x)) as [Hle|Hlt].
    + constructor; [now constructor|].
      constructor; [exact Hle|].
      eapply Forall_impl; [|exact Hy]. unfold count_desc. intros; lia.
    + constructor; [exact IH|].
      rewrite Forall_forall in *. intros z Hz.
      apply (Permutation_in _ (insert_desc_perm x l)) in Hz.
      destruct Hz as [Hz|Hz]; [subst z; unfold count_desc; lia | now apply Hy].
Qed.

Lemma sort_values_desc_sorted (l : list (string * nat)) :
  StronglySorted count_desc (sort_values_desc l).
Proof.
  induction l as [|x l IH]; cbn [sort_values_desc fold_right].
  - constructor.
  - now apply insert_desc_sorted.
Qed.

(** The early return on the empty frame agrees with the general path. *)
Lemma get_action_tags_stats_eq (c : connection) :
  get_action_tags_stats c
  = (all_tags <- scan_all_tags ;;
     ret (sort_values_desc (Counter all_tags))) c.
Proof.
  unfold get_action_tags_stats, scan_all_tags, bind.
  destruct (select_tags (db c)); reflexivity.
Qed.

Lemma value_of_bind_ret {A B : Type} (m : M A) (f : A -> B) (c : connection) :
  value_of ((a <- m ;; ret (f a)) c) = option_map f (value_of (m c)).
Proof. unfold bind, ret. destruct (m c); reflexivity. Qed.

(** C4: a ledger whose three visits carry the tag lists [A, B], [A] and []
    gives the frame with the rows (A, 2) and (B, 1), in that order.  A visit
    stored with the empty list changes nothing in the frame.  Whenever the
    function returns, the rows are sorted by count, largest first, there is
    one row per tag, and the count of a tag is the number of its occurrences
    in the scanned lists.  On a reachable connection it does return. *)
Theorem get_action_tags_stats_spec sha (c : connection) :
  (map v_tags (rows (visits (db c)))
   = [Some (json_dumps ["A"; "B"]); Some (json_dumps ["A"]);
      Some (json_dumps [])] ->
   get_action_tags_stats c = Returns [("A", 2%nat); ("B", 1%nat)] c)
  /\ (forall patient_id visit_date reason outcome progress now,
        value_of
          (get_action_tags_stats
             (conn_of (add_visit patient_id visit_date reason outcome
                         progress [] now c)))
        = value_of (get_action_tags_stats c))
  /\ (forall rs c',
        get_action_tags_stats c = Returns rs c' ->
        c' = c
        /\ StronglySorted count_desc rs
        /\ NoDup (map fst rs)
        /\ exists all_tags,
             scan_all_tags c = Returns all_tags c
             /\ forall t n,
                  In (t, n) rs
                  <-> n = count_occ string_dec all_tags t /\ (0 < n)%nat)
  /\ (reachable sha c -> exists rs, get_action_tags_stats c = Returns rs c).
Proof.
  split; [|split; [|split]].
  - intros Hmap.
    destruct (rows (visits (db c))) as [|v1 [|v2 [|v3 [|v4 l]]]] eqn:Hrows;
      try discriminate.
    cbn [map] in Hmap. inversion Hmap as [[H1 H2 H3]].
    rewrite get_action_tags_stats_eq.
    unfold scan_all_tags, select_tags, bind. rewrite Hrows.
    cbn [flat_map]. rewrite H1, H2, H3. reflexivity.
  - intros patient_id visit_date reason outcome progress now.
    rewrite !get_action_tags_stats_eq, !value_of_bind_ret. f_equal.
    unfold add_visit, bind, insert_visit.
    destruct (foreign_keys c && _); cbn [conn_of commit ret]; [reflexivity|].
    unfold scan_all_tags. cbn [db]. unfold append_row.
    rewrite select_tags_app. cbn [v_tags].
    change ((json_dumps [] =? "[]")%string) with true.
    rewrite app_nil_r. apply extend_all_value.
  - intros rs c' H. rewrite get_action_tags_stats_eq in H.
    unfold bind, ret in H.
    destruct (scan_all_tags c) as [all_tags c1|e c1] eqn:Hscan;
      [|discriminate].
    inversion H; subst rs c'. clear H.
    assert (Hc1 : c1 = c).
    { unfold scan_all_tags in Hscan.
      pose proof (extend_all_conn (select_tags (db c)) [] c) as Hc.
      rewrite Hscan in Hc. exact Hc. }
    subst c1. destruct (Counter_spec all_tags) as [Hnd Hrows].
    split; [reflexivity|]. split; [apply sort_values_desc_sorted|].
    split.
    + eapply Permutation_NoDup; [|exact Hnd].
      apply Permutation_map. symmetry. apply sort_values_desc_perm.
    + exists all_tags. split; [reflexivity|]. intros t n.
      rewrite <- Hrows. split; apply Permutation_in.
      * apply sort_values_desc_perm.
      * symmetry. apply sort_values_desc_perm.
  - intros Hreach. destruct (scan_all_tags_reachable sha c Hreach) as [ts Hts].
    rewrite get_action_tags_stats_eq. unfold bind, ret. rewrite Hts.
    eexists. reflexivity.
Qed.

Lemma get_action_tags_stats_spec_witness :
  reachable sample_digest
    (conn_of
       (add_visit 1 (mkDate 2024 3 3) None None None [] "t3"
          (conn_of
             (add_visit 1 (mkDate 2024 3 2) None None None ["A"] "t2"
                (conn_of
                   (add_visit 1 (mkDate 2024 3 1) None None None ["A"; "B"]
                      "t1" (first_run sample_digest)))))))
  /\ exists rs,
       value_of
         (get_action_tags_stats
            (conn_of
               (add_visit 1 (mkDate 2024 3 3) None None None [] "t3"
                  (conn_of
                     (add_visit 1 (mkDate 2024 3 2) None None None ["A"] "t2"
                        (conn_of
                           (add_visit 1 (mkDate 2024 3 1) None None None
                              ["A"; "B"] "t1" (first_run sample_digest))))))))
       = Some rs
       /\ rs = [("A", 2%nat); ("B", 1%nat)]
       /\ StronglySorted count_desc rs.
Proof.
  match goal with |- reachable _ ?x /\ _ => set (c := x) end.
  assert (Hreach : reachable sample_digest c).
  { repeat apply reach_add_visit. apply reach_first_run. }
  split; [exact Hreach|].
  destruct (get_action_tags_stats_spec sample_digest c)
    as (Hexample & _ & Hsorted & Hreturns).
  destruct (Hreturns Hreach) as [rs Hrs].
  exists rs. rewrite Hrs. split; [reflexivity|]. split.
  - rewrite (Hexample eq_refl) in Hrs. now inversion Hrs.
  - apply (Hsorted rs c Hrs).
Defined.

(** ** Reporting Engine: the monthly report *)

Lemma join_patients_visits_In (d : database) (lo hi : string) (r : report_row) :
  In r (join_patients_visits d lo hi)
  <-> exists p v,
        In p (rows (patients d)) /\ In v (rows (visits d))
        /\ p_id p = v_patient_id v
        /\ between (v_visit_date v) lo hi = true
        /\ r = project_patient p.
Proof.
  unfold join_patients_visits. rewrite in_flat_map. split.
  - intros (p & Hp & Hr). apply in_flat_map in Hr.
    destruct Hr as (v & Hv & Hr).
    destruct ((p_id p =? v_patient_id v) && between (v_visit_date v) lo hi)
      eqn:E; [|destruct Hr].
    destruct Hr as [Hr|[]]. apply andb_true_iff in E. destruct E as [E1 E2].
    apply Z.eqb_eq in E1. exists p, v. auto.
  - intros (p & v & Hp & Hv & Hid & Hb & Hr). exists p. split; [exact Hp|].
    apply in_flat_map. exists v. split; [exact Hv|].
    apply Z.eqb_eq in Hid. rewrite Hid, Hb. left. now symmetry.
Qed.

Lemma NoDup_map_injective_on {A B : Type} (f : A -> B) (l : list A)
    (x y : A) :
  NoDup (map f l) -> In x l -> In y l -> f x = f y -> x = y.
Proof.
  induction l as [|a l IH]; cbn [map In]; intros Hnd Hx Hy Hf; [destruct Hx|].
  inversion Hnd as [|? ? Hnotin Hnd']; subst.
  destruct Hx as [Hx|Hx], Hy as [Hy|Hy]; subst.
  - reflexivity.
  - exfalso. apply Hnotin. rewrite Hf. now apply in_map.
  - exfalso. apply Hnotin. rewrite <- Hf. now apply in_map.
  - now apply IH.
Qed.

(** C3: [get_monthly_report] returns, without touching the connection,
    a duplicate-free list that holds exactly the projections of the patients
    with a visit dated, as text, between [start_date] and [end_date] of the
    month, the strings year-month-01 and year-month-31; on a reachable
    connection no patient id occurs twice in it.  A patient with a visit
    dated 2024-02-29 is in the report of (2024, 2), and one with a visit
    dated 2024-04-30 is in the report of (2024, 4). *)
Theorem get_monthly_report_spec sha (c : connection) (year month : Z) :
  start_date year month = str_int year ++ "-" ++ format_02d month ++ "-01"
  /\ end_date year month = str_int year ++ "-" ++ format_02d month ++ "-31"
  /\ start_date 2024 2 = "2024-02-01" /\ end_date 2024 2 = "2024-02-31"
  /\ start_date 2024 4 = "2024-04-01" /\ end_date 2024 4 = "2024-04-31"
  /\ exists rs,
       get_monthly_report year month c = Returns rs c
       /\ NoDup rs
       /\ (forall r,
             In r rs
             <-> exists p,
                   In p (rows (patients (db c)))
                   /\ visited_between c p (start_date year month)
                        (end_date year month)
                   /\ r = project_patient p)
       /\ (reachable sha c -> NoDup (map r_id rs))
       /\ (forall p v,
             In p (rows (patients (db c))) ->
             In v (rows (visits (db c))) ->
             v_patient_id v = p_id p ->
             (year = 2024 /\ month = 2
              /\ v_visit_date v = strftime_ymd (mkDate 2024 2 29))
             \/ (year = 2024 /\ month = 4
                 /\ v_visit_date v = strftime_ymd (mkDate 2024 4 30)) ->
             In (project_patient p) rs).
Proof.
  repeat (split; [reflexivity|]).
  eexists. split; [reflexivity|].
  assert (Hchar : forall r,
    In r (nodup report_row_eq_dec
            (join_patients_visits (db c) (start_date year month)
               (end_date year month)))
    <-> exists p,
          In p (rows (patients (db c)))
          /\ visited_between c p (start_date year month) (end_date year month)
          /\ r = project_patient p).
  { intros r. rewrite nodup_In, join_patients_visits_In.
    unfold visited_between, between. split.
    - intros (p & v & Hp & Hv & Hid & Hb & Hr).
      apply andb_true_iff in Hb. destruct Hb as [Hlo Hhi].
      exists p. split; [exact Hp|]. split; [|exact Hr].
      exists v. auto.
    - intros (p & Hp & (v & Hv & Hid & Hlo & Hhi) & Hr).
      exists p, v. rewrite Hlo, Hhi. auto. }
  split; [apply NoDup_nodup|]. split; [exact Hchar|]. split.
  - intros Hreach. apply reachable_consistent in Hreach.
    apply NoDup_map_NoDup_ForallPairs; [|apply NoDup_nodup].
    intros r1 r2 H1 H2 Hid.
    apply Hchar in H1. destruct H1 as (p1 & Hp1 & _ & ->).
    apply Hchar in H2. destruct H2 as (p2 & Hp2 & _ & ->).
    cbn [project_patient r_id] in Hid.
    now rewrite (NoDup_map_injective_on p_id _ p1 p2
                   (cons_ids_nodup _ _ Hreach) Hp1 Hp2 Hid).
  - intros p v Hp Hv Hid Hcase. apply Hchar. exists p.
    split; [exact Hp|]. split; [|reflexivity].
    exists v. split; [exact Hv|]. split; [exact Hid|].
    destruct Hcase as [(-> & -> & ->)|(-> & -> & ->)]; split; reflexivity.
Qed.

Lemma get_monthly_report_spec_witness :
  reachable sample_digest
    (conn_of
       (add_visit 1 (mkDate 2024 2 29) (Some "Kontrol") None (Some "Membaik")
          ["EKG"] "2024-02-29 08:00:00"
          (conn_of
             (add_patient "Siti" (mkDate 1990 5 17) (Some "Perempuan") None
                None (Some "Hidup") None "2024-01-01 09:00:00"
                (first_run sample_digest)))))
  /\ exists rs,
       value_of
         (get_monthly_report 2024 2
            (conn_of
               (add_visit 1 (mkDate 2024 2 29) (Some "Kontrol") None
                  (Some "Membaik") ["EKG"] "2024-02-29 08:00:00"
                  (conn_of
                     (add_patient "Siti" (mkDate 1990 5 17) (Some "Perempuan")
                        None None (Some "Hidup") None "2024-01-01 09:00:00"
                        (first_run sample_digest))))))
       = Some rs
       /\ In (mkReportRow 1 "Siti" "1990-05-17" (Some "Perempuan") None) rs
       /\ NoDup (map r_id rs).
Proof.
  match goal with |- reachable _ ?x /\ _ => set (c := x) end.
  assert (Hreach : reachable sample_digest c).
  { apply reach_add_visit, reach_add_patient, reach_first_run. }
  split; [exact Hreach|].
  destruct (get_monthly_report_spec sample_digest c 2024 2)
    as (_ & _ & _ & _ & _ & _ & rs & Heq & _ & _ & Hids & Hcase).
  exists rs. rewrite Heq. split; [reflexivity|]. split.
  - apply (Hcase
             (mkPatient 1 "Siti" "1990-05-17" (Some "Perempuan") None None
                (Some "Hidup") None "2024-01-01 09:00:00")
             (mkVisit 1 1 "2024-02-29" (Some "Kontrol") None (Some "Membaik")
                (Some (json_dumps ["EKG"])) "2024-02-29 08:00:00")).
    + left. reflexivity.
    + left. reflexivity.
    + reflexivity.
    + left. repeat split; reflexivity.
  - exact (Hids Hreach).
Defined.

(** * Further properties of the database layer *)

(** ** Credentials on a running installation *)

(** X3: no writer touches the Credential Store.  On every reachable
    connection [login_user] answers from the one seeded row: [None] for any
    username but admin, and for admin the comparison of the digest of
    admin123 with the digest of the password. *)
Theorem login_user_reachable sha (c : connection) username password :
  reachable sha c ->
  login_user sha username password c
  = Returns
      (if (username =? "admin")%string
       then Some (verify_password sha (hash_password sha "admin123") password)
       else None)
      c.
Proof.
  intros H. apply reachable_consistent in H.
  rewrite login_user_eq, (cons_users _ _ H). cbn [find u_username].
  rewrite String.eqb_sym. destruct (username =? "admin")%string; reflexivity.
Qed.

Lemma login_user_reachable_witness :
  reachable sample_digest
    (conn_of
       (add_patient "Siti" (mkDate 1990 5 17) None None None (Some "Hidup")
          None "2024-01-01 09:00:00" (first_run sample_digest)))
  /\ value_of
       (login_user sample_digest "admin" "admin124"
          (conn_of
             (add_patient "Siti" (mkDate 1990 5 17) None None None
                (Some "Hidup") None "2024-01-01 09:00:00"
                (first_run sample_digest))))
     = Some (Some false).
Proof.
  assert (H : reachable sample_digest
                (conn_of
                   (add_patient "Siti" (mkDate 1990 5 17) None None None
                      (Some "Hidup") None "2024-01-01 09:00:00"
                      (first_run sample_digest)))).
  { apply reach_add_patient, reach_first_run. }
  split; [exact H|].
  rewrite (login_user_reachable sample_digest _ "admin" "admin124" H).
  reflexivity.
Defined.

(** X14: every writer commits what it writes.  On a reachable connection
    the content of the file is the database the connection sees; so closing
    the program, connecting to the file again and running [init_db] returns
    and gives the connection back, with nothing lost. *)
Theorem reopen_reachable sha (c : connection) :
  reachable sha c ->
  file c = db c
  /\ init_db sha (get_db_connection (file c)) = Returns tt c.
Proof.
  intros H. apply reachable_consistent in H.
  pose proof (cons_committed _ _ H) as Hfile. split; [exact Hfile|].
  assert (Hc : get_db_connection (file c) = c).
  { unfold get_db_connection, sqlite3_connect.
    pose proof (cons_fk _ _ H) as Hfk.
    destruct c as [fk d f]. cbn in *. now subst. }
  rewrite Hc. now apply init_db_consistent.
Qed.

Lemma reopen_reachable_witness :
  reachable sample_digest
    (conn_of
       (add_visit 1 (mkDate 2024 2 29) None None None ["EKG"] "t1"
          (first_run sample_digest)))
  /\ List.length
       (rows (visits (db
          (conn_of
             (init_db sample_digest
                (get_db_connection
                   (file (conn_of
                            (add_visit 1 (mkDate 2024 2 29) None None None
                               ["EKG"] "t1" (first_run sample_digest))))))))))
     = 1%nat.
Proof.
  assert (H : reachable sample_digest
                (conn_of
                   (add_visit 1 (mkDate 2024 2 29) None None None ["EKG"]
                      "t1" (first_run sample_digest)))).
  { apply reach_add_visit, reach_first_run. }
  split; [exact H|].
  rewrite (proj2 (reopen_reachable sample_digest _ H)). reflexivity.
Defined.

(** ** Status updates: how they compose *)

Lemma set_status_overwrite s1 h1 s2 h2 patient_id (p : patient_row) :
  set_status s2 h2 patient_id (set_status s1 h1 patient_id p)
  = set_status s2 h2 patient_id p.
Proof.
  unfold set_status. destruct (p_id p =? patient_id) eqn:E; cbn [p_id].
  - rewrite E. reflexivity.
  - rewrite E. reflexivity.
Qed.

Lemma set_status_commute s1 h1 s2 h2 id1 id2 (p : patient_row) :
  id1 <> id2 ->
  set_status s2 h2 id2 (set_status s1 h1 id1 p)
  = set_status s1 h1 id1 (set_status s2 h2 id2 p).
Proof.
  intros Hne. unfold set_status.
  destruct (Z.eqb_spec (p_id p) id1) as [H1|H1];
    destruct (Z.eqb_spec (p_id p) id2) as [H2|H2]; cbn [p_id].
  - congruence.
  - destruct (Z.eqb_spec (p_id p) id2); [contradiction|].
    destruct (Z.eqb_spec (p_id p) id1); [reflexivity | contradiction].
  - destruct (Z.eqb_spec (p_id p) id2); [|contradiction].
    destruct (Z.eqb_spec (p_id p) id1); [contradiction | reflexivity].
  - destruct (Z.eqb_spec (p_id p) id2); [contradiction|].
    destruct (Z.eqb_spec (p_id p) id1); [contradiction | reflexivity].
Qed.

(** X7: the last write wins.  Two status updates of the same patient leave
    the connection that the second one alone leaves, whatever the first one
    wrote; there is no guard on the status a patient has. *)
Theorem update_patient_status_last_wins patient_id s1 h1 s2 h2
    (c : connection) :
  conn_of (update_patient_status patient_id s2 h2
             (conn_of (update_patient_status patient_id s1 h1 c)))
  = conn_of (update_patient_status patient_id s2 h2 c).
Proof.
  destruct (fits_int64 patient_id) eqn:F.
  - rewrite !update_patient_status_eq by exact F. cbn [conn_of].
    cbn [foreign_keys db users patients visits documents set_patients rows
         seq].
    rewrite map_map.
    rewrite (map_ext _ _ (set_status_overwrite s1 h1 s2 h2 patient_id)).
    reflexivity.
  - now rewrite !update_patient_status_overflow by exact F.
Qed.

(** X8: status updates of two different patients can be made in either
    order. *)
Theorem update_patient_status_commute id1 s1 h1 id2 s2 h2 (c : connection) :
  id1 <> id2 ->
  conn_of (update_patient_status id2 s2 h2
             (conn_of (update_patient_status id1 s1 h1 c)))
  = conn_of (update_patient_status id1 s1 h1
               (conn_of (update_patient_status id2 s2 h2 c))).
Proof.
  intros Hne.
  destruct (fits_int64 id1) eqn:F1; destruct (fits_int64 id2) eqn:F2.
  - rewrite !update_patient_status_eq by assumption. cbn [conn_of].
    cbn [foreign_keys db users patients visits documents set_patients rows
         seq].
    rewrite !map_map.
    rewrite (map_ext _ _
               (fun p => set_status_commute s1 h1 s2 h2 id1 id2 p Hne)).
    reflexivity.
  - rewrite !(update_patient_status_overflow id2) by exact F2.
    reflexivity.
  - rewrite !(update_patient_status_overflow id1) by exact F1.
    reflexivity.
  - rewrite !(update_patient_status_overflow id1) by exact F1.
    rewrite !(update_patient_status_overflow id2) by exact F2.
    reflexivity.
Qed.

Lemma update_patient_status_commute_witness :
  1 <> 2
  /\ conn_of
       (update_patient_status 2 (Some "Lahir di Sini") (Some "admin")
          (conn_of
             (update_patient_status 1 (Some "Meninggal Dunia") (Some "admin")
                (conn_of
                   (add_patient "Budi" (mkDate 1985 3 9) None None None
                      (Some "Hidup") None "t2"
                      (conn_of
                         (add_patient "Siti" (mkDate 1990 5 17) None None None
                            (Some "Hidup") None "t1"
                            (first_run sample_digest))))))))
     = conn_of
         (update_patient_status 1 (Some "Meninggal Dunia") (Some "admin")
            (conn_of
               (update_patient_status 2 (Some "Lahir di Sini") (Some "admin")
                  (conn_of
                     (add_patient "Budi" (mkDate 1985 3 9) None None None
                        (Some "Hidup") None "t2"
                        (conn_of
                           (add_patient "Siti" (mkDate 1990 5 17) None None
                              None (Some "Hidup") None "t1"
                              (first_run sample_digest)))))))).
Proof.
  assert (H : 1 <> 2) by discriminate.
  split; [exact H|].
  apply (update_patient_status_commute 1 (Some "Meninggal Dunia")
           (Some "admin") 2 (Some "Lahir di Sini") (Some "admin") _ H).
Defined.

(** ** What a status update leaves alone *)

Lemma join_set_status new_status handler patient_id
    (lo hi : string) (l : list patient_row) (vs : list visit_row) :
  flat_map
    (fun p =>
       flat_map
         (fun v =>
            if (p_id p =? v_patient_id v) && between (v_visit_date v) lo hi
            then [project_patient p] else [])
         vs)
    (map (set_status new_status handler patient_id) l)
  = flat_map
      (fun p =>
         flat_map
           (fun v =>
              if (p_id p =? v_patient_id v) && between (v_visit_date v) lo hi
              then [project_patient p] else [])
           vs)
      l.
Proof.
  induction l as [|p l IH]; [reflexivity|]. cbn [map flat_map].
  rewrite IH. f_equal.
  assert (Hproj : project_patient (set_status new_status handler patient_id p)
                  = project_patient p).
  { unfold set_status. destruct (p_id p =? patient_id); reflexivity. }
  destruct (set_status_key new_status handler patient_id p) as (Hid & _).
  apply flat_map_ext. intros v. now rewrite Hid, Hproj.
Qed.

(** X6: a status update changes neither report: the monthly report of
    every month and the tag statistics are what they were before it. *)
Theorem reports_after_update_patient_status patient_id new_status handler
    (c : connection) (year month : Z) :
  value_of
    (get_monthly_report year month
       (conn_of (update_patient_status patient_id new_status handler c)))
  = value_of (get_monthly_report year month c)
  /\ value_of
       (get_action_tags_stats
          (conn_of (update_patient_status patient_id new_status handler c)))
     = value_of (get_action_tags_stats c).
Proof.
  destruct (fits_int64 patient_id) eqn:F;
    [|rewrite update_patient_status_overflow by exact F; split; reflexivity].
  rewrite update_patient_status_eq by exact F. cbn [conn_of]. split.
  - unfold get_monthly_report. cbn [value_of]. f_equal. f_equal.
    unfold join_patients_visits.
    cbn [db patients visits set_patients rows].
    apply join_set_status.
  - rewrite !get_action_tags_stats_eq, !value_of_bind_ret. f_equal.
    unfold scan_all_tags, select_tags. cbn [db visits set_patients].
    apply extend_all_value.
Qed.

(** ** What no writer ever does *)

Lemma step_keeps sha (c c' : connection) :
  step sha c c' ->
  (exists vs, rows (visits (db c')) = (rows (visits (db c)) ++ vs)%list)
  /\ (exists ps,
        map frozen_columns (rows (patients (db c')))
        = (map frozen_columns (rows (patients (db c))) ++ ps)%list)
  /\ documents (db c') = documents (db c)
  /\ foreign_keys c' = foreign_keys c.
Proof.
  intros H. destruct H.
  - destruct (find (fun u => (u_username u =? "admin")%string)
                (rows (users (db c)))) as [row|] eqn:E.
    + rewrite (init_db_seeded sha c row E). cbn [conn_of].
      repeat split; try (exists []; now rewrite app_nil_r).
    + rewrite (init_db_unseeded sha c E). cbn [conn_of].
      repeat split; try (exists []; now rewrite app_nil_r).
  - destruct (existsb (fun p => (p_name p =? name)%string
                                && (p_dob p =? strftime_ymd dob)%string)
                (rows (patients (db c)))) eqn:E.
    + rewrite add_patient_duplicate by exact E. cbn [conn_of].
      repeat split; try (exists []; now rewrite app_nil_r).
    + rewrite add_patient_fresh by exact E. cbn [conn_of].
      repeat split; try (exists []; now rewrite app_nil_r).
      cbn [db patients set_patients append_row rows]. rewrite map_app.
      eexists. reflexivity.
  - unfold add_visit, bind, insert_visit.
    destruct (foreign_keys c && _); cbn [conn_of commit ret].
    + repeat split; try (exists []; now rewrite app_nil_r).
    + repeat split; try (exists []; now rewrite app_nil_r).
      cbn [db visits set_visits append_row rows]. eexists. reflexivity.
  - destruct (fits_int64 patient_id) eqn:F;
      [|rewrite update_patient_status_overflow by exact F; cbn [conn_of];
        repeat split; exists []; now rewrite app_nil_r].
    rewrite update_patient_status_eq by exact F. cbn [conn_of].
    repeat split; try (exists []; now rewrite app_nil_r).
    cbn [db patients set_patients rows]. exists [].
    rewrite app_nil_r, map_map. apply map_ext. intros p.
    unfold frozen_columns, set_status.
    destruct (p_id p =? patient_id); reflexivity.
Qed.

(** X5: the Visit Ledger is append-only and the identity of a patient is
    fixed.  Whatever writers are called, in whatever order and with whatever
    arguments, the visit rows stored before are still there, unchanged and in
    place, followed by the new ones; the same holds for the id, name, date
    of birth, gender, diagnosis, notes and creation time of every patient;
    the documents table and the pragma are never written. *)
Theorem writers_keep_history sha (c c' : connection) :
  steps sha c c' ->
  (exists vs, rows (visits (db c')) = (rows (visits (db c)) ++ vs)%list)
  /\ (exists ps,
        map frozen_columns (rows (patients (db c')))
        = (map frozen_columns (rows (patients (db c))) ++ ps)%list)
  /\ documents (db c') = documents (db c)
  /\ foreign_keys c' = foreign_keys c.
Proof.
  induction 1 as [c|c c' c'' Hstep Hsteps IH].
  - repeat split; try (exists []; now rewrite app_nil_r).
  - destruct (step_keeps sha c c' Hstep) as ([vs Hv] & [ps Hp] & Hd & Hf).
    destruct IH as ([vs' Hv'] & [ps' Hp'] & Hd' & Hf').
    split; [|split; [|split]].
    + exists (vs ++ vs')%list. now rewrite Hv', Hv, app_assoc.
    + exists (ps ++ ps')%list. now rewrite Hp', Hp, app_assoc.
    + congruence.
    + congruence.
Qed.

Lemma writers_keep_history_witness :
  steps sample_digest
    (conn_of
       (add_visit 1 (mkDate 2024 2 29) None None None ["EKG"] "t1"
          (first_run sample_digest)))
    (conn_of
       (update_patient_status 1 (Some "Meninggal Dunia") (Some "admin")
          (conn_of
             (add_visit 1 (mkDate 2024 2 29) None None None ["EKG"] "t1"
                (first_run sample_digest)))))
  /\ exists vs,
       rows (visits (db
          (conn_of
             (update_patient_status 1 (Some "Meninggal Dunia") (Some "admin")
                (conn_of
                   (add_visit 1 (mkDate 2024 2 29) None None None ["EKG"]
                      "t1" (first_run sample_digest)))))))
       = (rows (visits (db
            (conn_of
               (add_visit 1 (mkDate 2024 2 29) None None None ["EKG"] "t1"
                  (first_run sample_digest)))))
          ++ vs)%list.
Proof.
  match goal with |- steps _ ?a ?b /\ _ => set (c := a); set (c' := b) end.
  assert (H : steps sample_digest c c').
  { eapply steps_cons; [|apply steps_refl].
    apply step_update_patient_status. }
  split; [exact H|].
  exact (proj1 (writers_keep_history sample_digest c c' H)).
Defined.

(** ** Row ids *)





(** ** Births and deaths *)

Lemma insert_key_perm (x : string * nat) (l : list (string * nat)) :
  Permutation (insert_key x l) (x :: l).
Proof.
  induction l as [|y l IH]; cbn [insert_key]; [reflexivity|].
  destruct (fst x <=? fst y)%string; [reflexivity|].
  rewrite IH. apply perm_swap.
Qed.

Lemma sort_by_key_perm (l : list (string * nat)) :
  Permutation (sort_by_key l) l.
Proof.
  induction l as [|x l IH]; cbn [sort_by_key fold_right]; [reflexivity|].
  fold (sort_by_key l). rewrite insert_key_perm. now constructor.
Qed.

Lemma count_occ_select_life_status (d : database) (s : string) :
  count_occ string_dec (select_life_status d) s
  = if (s =? "Lahir di Sini")%string || (s =? "Meninggal Dunia")%string
    then List.length
           (filter (fun p => status_is s (p_status p)) (rows (patients d)))
    else 0%nat.
Proof.
  unfold select_life_status.
  induction (rows (patients d)) as [|p l IH]; cbn [flat_map filter].
  - destruct (_ || _); reflexivity.
  - rewrite count_occ_app, IH. clear IH.
    destruct (p_status p) as [s'|]; cbn [status_is].
    + destruct (String.eqb_spec s' s) as [->|Hne].
      * destruct ((s =? "Lahir di Sini")%string
                  || (s =? "Meninggal Dunia")%string); cbn [count_occ].
        -- destruct (string_dec s s); [reflexivity | contradiction].
        -- reflexivity.
      * destruct ((s' =? "Lahir di Sini")%string
                  || (s' =? "Meninggal Dunia")%string); cbn [count_occ].
        -- destruct (string_dec s' s); [contradiction | reflexivity].
        -- reflexivity.
    + reflexivity.
Qed.

(** X1: [get_life_status_stats] returns, without touching the connection,
    at most two rows with distinct statuses: a row (s, n) is in the frame
    exactly when s is Lahir di Sini or Meninggal Dunia, n is the number of
    patients with status s, and n is not 0.  Hidup, a NULL status and any
    other text never show up, nor does a status that no patient has. *)
Theorem get_life_status_stats_spec (c : connection) :
  exists rs,
    get_life_status_stats c = Returns rs c
    /\ NoDup (map fst rs)
    /\ (List.length rs <= 2)%nat
    /\ forall s n,
         In (s, n) rs
         <-> (s = "Lahir di Sini" \/ s = "Meninggal Dunia")
             /\ n = count_status s c /\ (0 < n)%nat.
Proof.
  eexists. split; [reflexivity|].
  set (l := select_life_status (db c)).
  destruct (Counter_spec l) as [Hnd Hrows].
  assert (Hchar : forall s n,
    In (s, n) (sort_by_key (Counter l))
    <-> (s = "Lahir di Sini" \/ s = "Meninggal Dunia")
        /\ n = count_status s c /\ (0 < n)%nat).
  { intros s n.
    assert (Hin : In (s, n) (sort_by_key (Counter l)) <-> In (s, n) (Counter l)).
    { split; apply Permutation_in;
        [apply sort_by_key_perm | symmetry; apply sort_by_key_perm]. }
    rewrite Hin, Hrows. subst l. rewrite count_occ_select_life_status.
    unfold count_status.
    destruct (String.eqb_spec s "Lahir di Sini") as [H1|H1];
      destruct (String.eqb_spec s "Meninggal Dunia") as [H2|H2]; cbn [orb];
      intuition lia. }
  split; [|split; [|exact Hchar]].
  - eapply Permutation_NoDup; [|exact Hnd].
    apply Permutation_map. symmetry. apply sort_by_key_perm.
  - rewrite <- (length_map fst).
    change 2%nat with (List.length ["Lahir di Sini"; "Meninggal Dunia"]).
    apply NoDup_incl_length.
    + eapply Permutation_NoDup; [|exact Hnd].
      apply Permutation_map. symmetry. apply sort_by_key_perm.
    + intros s Hs. apply in_map_iff in Hs. destruct Hs as ([s' n] & Hs & Hin).
      cbn [fst] in Hs. subst s'. apply Hchar in Hin.
      destruct Hin as ([->| ->] & _); cbn; auto.
Qed.

Lemma map_set_status_others new_status handler patient_id
    (l : list patient_row) :
  ~ In patient_id (map p_id l) ->
  map (set_status new_status handler patient_id) l = l.
Proof.
  induction l as [|q l IH]; cbn [map In]; intros H; [reflexivity|].
  rewrite IH by tauto. rewrite set_status_other by tauto. reflexivity.
Qed.

(** X2: a status update moves exactly one patient between the status
    counts.  For a stored patient on a reachable connection, whose id fits a
    rowid, and every status text s, the number of patients with status s
    after the update, plus one if the patient had status s before, equals
    the number before, plus one if the new status is s. *)
Theorem update_patient_status_counts sha (c : connection) (p : patient_row)
    new_status handler (s : string) :
  reachable sha c ->
  In p (rows (patients (db c))) ->
  fits_int64 (p_id p) = true ->
  (count_status s
     (conn_of (update_patient_status (p_id p) new_status handler c))
   + (if status_is s (p_status p) then 1 else 0))%nat
  = (count_status s c + (if status_is s new_status then 1 else 0))%nat.
Proof.
  intros Hreach Hin F. apply reachable_consistent in Hreach.
  pose proof (cons_ids_nodup _ _ Hreach) as Hnd.
  rewrite update_patient_status_eq by exact F. unfold count_status.
  cbn [conn_of db patients set_patients rows].
  destruct (in_split _ _ Hin) as (l1 & l2 & Hrows).
  rewrite Hrows in *. rewrite map_app in Hnd. cbn [map] in Hnd.
  apply NoDup_remove_2 in Hnd.
  rewrite map_app. cbn [map].
  rewrite (map_set_status_others new_status handler (p_id p) l1),
          (map_set_status_others new_status handler (p_id p) l2).
  - rewrite !filter_app, !length_app. cbn [filter].
    unfold set_status at 1. rewrite Z.eqb_refl. cbn [p_status].
    destruct (status_is s new_status), (status_is s (p_status p));
      cbn [List.length]; lia.
  - intros H. apply Hnd. apply in_or_app. now right.
  - intros H. apply Hnd. apply in_or_app. now left.
Qed.

Lemma update_patient_status_counts_witness :
  reachable sample_digest
    (conn_of
       (add_patient "Siti" (mkDate 1990 5 17) None None None (Some "Hidup")
          None "t1" (first_run sample_digest)))
  /\ count_status "Meninggal Dunia"
       (conn_of
          (update_patient_status 1 (Some "Meninggal Dunia") (Some "admin")
             (conn_of
                (add_patient "Siti" (mkDate 1990 5 17) None None None
                   (Some "Hidup") None "t1" (first_run sample_digest)))))
     = 1%nat.
Proof.
  match goal with |- reachable _ ?x /\ _ => set (c := x) end.
  assert (H : reachable sample_digest c).
  { apply reach_add_patient, reach_first_run. }
  split; [exact H|].
  pose proof (update_patient_status_counts sample_digest c
                (mkPatient 1 "Siti" "1990-05-17" None None None (Some "Hidup")
                   None "t1")
                (Some "Meninggal Dunia") (Some "admin") "Meninggal Dunia" H
                (or_introl eq_refl) eq_refl) as Hcount.
  cbn [p_id p_status status_is] in Hcount.
  change (("Hidup" =? "Meninggal Dunia")%string) with false in Hcount.
  change (("Meninggal Dunia" =? "Meninggal Dunia")%string) with true in Hcount.
  change (count_status "Meninggal Dunia" c) with 0%nat in Hcount.
  rewrite Nat.add_0_r in Hcount. exact Hcount.
Defined.

(** ** Tag statistics: totals and growth *)





Lemma list_sum_counter_add (t : string) (cnt : list (string * nat)) :
  list_sum (map snd (counter_add t cnt)) = S (list_sum (map snd cnt)).
Proof.
  induction cnt as [|[k n] cnt IH]; cbn [counter_add].
  - reflexivity.
  - destruct (k =? t)%string; cbn [map snd].
    + reflexivity.
    + change (n + list_sum (map snd (counter_add t cnt))
              = S (n + list_sum (map snd cnt)))%nat.
      rewrite IH. lia.
Qed.

Lemma list_sum_Counter (l : list string) :
  forall cnt,
    list_sum (map snd (fold_left (fun cnt t => counter_add t cnt) l cnt))
    = (list_sum (map snd cnt) + List.length l)%nat.
Proof.
  induction l as [|x l IH]; intros cnt; cbn [fold_left List.length].
  - lia.
  - rewrite IH, list_sum_counter_add. lia.
Qed.

Lemma list_sum_perm (l l' : list nat) :
  Permutation l l' -> list_sum l = list_sum l'.
Proof.
  induction 1 as [|x l l' Hp IH|x y l|l l' l'' Hp1 IH1 Hp2 IH2].
  - reflexivity.
  - change (x + list_sum l = x + list_sum l')%nat. lia.
  - change (y + (x + list_sum l) = x + (y + list_sum l))%nat. lia.
  - congruence.
Qed.

(** X11: whenever [get_action_tags_stats] returns, the counts of its rows
    add up to the number of tags that the scan collected: no tag is lost and
    none is counted twice. *)
Theorem get_action_tags_stats_total (c c' : connection)
    (rs : list (string * nat)) :
  get_action_tags_stats c = Returns rs c' ->
  exists all_tags,
    scan_all_tags c = Returns all_tags c
    /\ list_sum (map snd rs) = List.length all_tags.
Proof.
  intros H. rewrite get_action_tags_stats_eq in H. unfold bind, ret in H.
  destruct (scan_all_tags c) as [ts c1|e c1] eqn:Hscan; [|discriminate].
  inversion H; subst rs c'. clear H.
  assert (Hc1 : c1 = c).
  { unfold scan_all_tags in Hscan.
    pose proof (extend_all_conn (select_tags (db c)) [] c) as Hc.
    rewrite Hscan in Hc. exact Hc. }
  subst c1. exists ts. split; [reflexivity|].
  rewrite (list_sum_perm _ (map snd (Counter ts))).
  - unfold Counter. rewrite list_sum_Counter. reflexivity.
  - apply Permutation_map, sort_values_desc_perm.
Qed.

Lemma get_action_tags_stats_total_witness :
  get_action_tags_stats
    (conn_of
       (add_visit 1 (mkDate 2024 3 1) None None None
          ["EKG"; "Injeksi"; "EKG"] "t1" (first_run sample_digest)))
  = Returns [("EKG", 2%nat); ("Injeksi", 1%nat)]
      (conn_of
         (add_visit 1 (mkDate 2024 3 1) None None None
            ["EKG"; "Injeksi"; "EKG"] "t1" (first_run sample_digest)))
  /\ exists all_tags,
       scan_all_tags
         (conn_of
            (add_visit 1 (mkDate 2024 3 1) None None None
               ["EKG"; "Injeksi"; "EKG"] "t1" (first_run sample_digest)))
       = Returns all_tags
           (conn_of
              (add_visit 1 (mkDate 2024 3 1) None None None
                 ["EKG"; "Injeksi"; "EKG"] "t1" (first_run sample_digest)))
       /\ list_sum (map snd [("EKG", 2%nat); ("Injeksi", 1%nat)])
          = List.length all_tags.
Proof.
  assert (H : get_action_tags_stats
                (conn_of
                   (add_visit 1 (mkDate 2024 3 1) None None None
                      ["EKG"; "Injeksi"; "EKG"] "t1"
                      (first_run sample_digest)))
              = Returns [("EKG", 2%nat); ("Injeksi", 1%nat)]
                  (conn_of
                     (add_visit 1 (mkDate 2024 3 1) None None None
                        ["EKG"; "Injeksi"; "EKG"] "t1"
                        (first_run sample_digest)))) by reflexivity.
  split; [exact H|].
  exact (get_action_tags_stats_total _ _ _ H).
Defined.

(** ** Dates as text *)

Lemma str_int_inj (a b : Z) : str_int a = str_int b -> a = b.
Proof.
  unfold str_int. intros H.
  assert (Hnonnil : forall z,
            Z.to_int z <> Decimal.Pos Decimal.Nil
            /\ Z.to_int z <> Decimal.Neg Decimal.Nil).
  { intros [|p|p]; cbn [Z.to_int]; split; try discriminate;
      intros Hp; inversion Hp as [Hq];
      exact (DecimalPos.Unsigned.to_uint_nonnil p Hq). }
  apply (f_equal NilZero.int_of_string) in H.
  rewrite !NilZero.isi in H by apply Hnonnil.
  inversion H as [Heq]. now apply DecimalZ.to_int_inj.
Qed.

Lemma compare_refl (s : string) : (s ?= s)%string = Eq.
Proof.
  induction s as [|c s IH]; cbn [String.compare]; [reflexivity|].
  unfold Ascii.compare. now rewrite N.compare_refl.
Qed.

(** Texts that start with prefixes of one length are ordered by the
    prefixes, and by what follows when the prefixes are equal. *)
Lemma compare_append (a b x y : string) :
  String.length a = String.length b ->
  (a ++ x ?= b ++ y)%string
  = match (a ?= b)%string with
    | Eq => (x ?= y)%string
    | o => o
    end.
Proof.
  revert b. induction a as [|c a IH]; intros [|c' b] Hlen;
    try discriminate; cbn [append String.compare].
  - reflexivity.
  - destruct (Ascii.compare c c'); [|reflexivity|reflexivity].
    apply IH. now inversion Hlen.
Qed.

Lemma between_append (a b x lo hi : string) :
  String.length a = String.length b ->
  between (a ++ x) (b ++ lo) (b ++ hi) = (a =? b)%string && between x lo hi.
Proof.
  intros Hlen. unfold between, String.leb.
  rewrite (compare_append b a lo x) by now symmetry.
  rewrite (compare_append a b x hi) by exact Hlen.
  destruct (String.eqb_spec a b) as [->|Hne].
  - rewrite compare_refl. reflexivity.
  - rewrite (String.compare_antisym b a).
    destruct (a ?= b)%string eqn:E; cbn [CompOpp andb].
    + apply String.compare_eq_iff in E. contradiction.
    + reflexivity.
    + reflexivity.
Qed.

Lemma append_inv_head (a x y : string) : a ++ x = a ++ y -> x = y.
Proof.
  induction a as [|c a IH]; cbn [append]; intros H; [exact H|].
  inversion H. auto.
Qed.

(** The years 1000 to 9999 are written with four digits. *)
Lemma str_int_year_length (y : Z) :
  1000 <= y <= 9999 -> String.length (str_int y) = 4%nat.
Proof.
  intros H.
  assert (Htable :
    forallb (fun n => Nat.eqb (String.length (str_int (Z.of_nat n))) 4)
      (List.seq (Z.to_nat 1000) (Z.to_nat 9000)) = true)
    by (vm_compute; reflexivity).
  rewrite forallb_forall in Htable.
  specialize (Htable (Z.to_nat y)). rewrite Z2Nat.id in Htable by lia.
  apply Nat.eqb_eq, Htable, in_seq. lia.
Qed.

Lemma zfill_full (w : nat) (s : string) :
  String.length s = w -> zfill w s = s.
Proof.
  intros H. unfold zfill. rewrite H, Nat.sub_diag. reflexivity.
Qed.

(** Month and day: within one year, the text of a date lies between the
    bounds of a month exactly when it is a date of that month. *)
Lemma between_month_day (m m0 d : Z) :
  1 <= m <= 12 -> 1 <= m0 <= 12 -> 1 <= d <= 31 ->
  between ("-" ++ zfill 2 (str_int m) ++ "-" ++ zfill 2 (str_int d))
    ("-" ++ format_02d m0 ++ "-01") ("-" ++ format_02d m0 ++ "-31")
  = (m =? m0).
Proof.
  intros Hm Hm0 Hd.
  assert (Htable :
    forallb
      (fun a =>
         forallb
           (fun b =>
              forallb
                (fun e =>
                   Bool.eqb
                     (between
                        ("-" ++ zfill 2 (str_int (Z.of_nat a)) ++ "-"
                         ++ zfill 2 (str_int (Z.of_nat e)))
                        ("-" ++ format_02d (Z.of_nat b) ++ "-01")
                        ("-" ++ format_02d (Z.of_nat b) ++ "-31"))
                     (Z.of_nat a =? Z.of_nat b))
                (List.seq 1 31))
           (List.seq 1 12))
      (List.seq 1 12) = true) by (vm_compute; reflexivity).
  rewrite forallb_forall in Htable.
  specialize (Htable (Z.to_nat m)). rewrite forallb_forall in Htable.
  specialize (Htable ltac:(apply in_seq; lia) (Z.to_nat m0)).
  rewrite forallb_forall in Htable.
  specialize (Htable ltac:(apply in_seq; lia) (Z.to_nat d)
                ltac:(apply in_seq; lia)).
  rewrite !Z2Nat.id in Htable by lia.
  now apply Bool.eqb_prop in Htable.
Qed.

Lemma strftime_ymd_year (d : date) :
  valid_date d ->
  strftime_ymd d
  = str_int (year d)
    ++ ("-" ++ zfill 2 (str_int (month d)) ++ "-" ++ zfill 2 (str_int (day d))).
Proof.
  intros (Hy & _). unfold strftime_ymd.
  rewrite (zfill_full 4) by now apply str_int_year_length.
  reflexivity.
Qed.

(** The text of a valid date lies between the two bounds of
    [get_monthly_report] exactly when the date is of that year and month:
    the fixed day 31 of the upper bound admits no date of another month. *)
Lemma between_calendar_month (d : date) (y0 m0 : Z) :
  valid_date d -> 1000 <= y0 <= 9999 -> 1 <= m0 <= 12 ->
  between (strftime_ymd d) (start_date y0 m0) (end_date y0 m0)
  = (year d =? y0) && (month d =? m0).
Proof.
  intros Hd Hy0 Hm0. rewrite strftime_ymd_year by exact Hd.
  destruct Hd as (Hy & Hm & Hday). unfold start_date, end_date.
  rewrite between_append
    by (rewrite !str_int_year_length by assumption; reflexivity).
  rewrite between_month_day by assumption. f_equal.
  destruct (String.eqb_spec (str_int (year d)) (str_int y0)) as [E|E].
  - apply str_int_inj in E. symmetry. now apply Z.eqb_eq.
  - symmetry. apply Z.eqb_neq. intros Heq. apply E. now rewrite Heq.
Qed.

Lemma zfill_day_inj (d1 d2 : Z) :
  1 <= d1 <= 31 -> 1 <= d2 <= 31 ->
  zfill 2 (str_int d1) = zfill 2 (str_int d2) -> d1 = d2.
Proof.
  intros H1 H2 H.
  assert (Htable :
    forallb
      (fun a =>
         forallb
           (fun b =>
              implb
                (zfill 2 (str_int (Z.of_nat a))
                 =? zfill 2 (str_int (Z.of_nat b)))%string
                (Nat.eqb a b))
           (List.seq 1 31))
      (List.seq 1 31) = true) by (vm_compute; reflexivity).
  rewrite forallb_forall in Htable.
  specialize (Htable (Z.to_nat d1) ltac:(apply in_seq; lia)).
  rewrite forallb_forall in Htable.
  specialize (Htable (Z.to_nat d2) ltac:(apply in_seq; lia)).
  rewrite !Z2Nat.id in Htable by lia.
  apply String.eqb_eq in H. rewrite H in Htable. cbn [implb] in Htable.
  apply Nat.eqb_eq in Htable. lia.
Qed.

(** Two valid dates with the same text are the same date. *)
Lemma strftime_ymd_inj (d1 d2 : date) :
  valid_date d1 -> valid_date d2 ->
  strftime_ymd d1 = strftime_ymd d2 -> d1 = d2.
Proof.
  intros H1 H2 H.
  pose proof (between_calendar_month d1 (year d2) (month d2) H1
                (proj1 H2) (proj1 (proj2 H2))) as Hb1.
  pose proof (between_calendar_month d2 (year d2) (month d2) H2
                (proj1 H2) (proj1 (proj2 H2))) as Hb2.
  rewrite H, Hb2, !Z.eqb_refl in Hb1. symmetry in Hb1.
  apply andb_true_iff in Hb1. destruct Hb1 as [Hy Hm].
  apply Z.eqb_eq in Hy. apply Z.eqb_eq in Hm.
  rewrite (strftime_ymd_year d1 H1), (strftime_ymd_year d2 H2), Hy, Hm in H.
  apply append_inv_head in H.
  change ("-" ++ zfill 2 (str_int (month d2)) ++ "-"
          ++ zfill 2 (str_int (day d1)))
    with (String "-" (zfill 2 (str_int (month d2)) ++ "-"
                      ++ zfill 2 (str_int (day d1)))) in H.
  change ("-" ++ zfill 2 (str_int (month d2)) ++ "-"
          ++ zfill 2 (str_int (day d2)))
    with (String "-" (zfill 2 (str_int (month d2)) ++ "-"
                      ++ zfill 2 (str_int (day d2)))) in H.
  inversion H as [H']. apply append_inv_head in H'.
  inversion H' as [H'']. 
  apply zfill_day_inj in H''; [|apply H1|apply H2].
  destruct d1, d2. cbn in *. congruence.
Qed.

(** X9: the monthly report is the report of the calendar month.  For a
    year from 1000 to 9999, a month from 1 to 12 and a stored patient all of
    whose visits carry the text of a valid date, the patient is in the report
    exactly when one of those visits is dated in that year and month: the
    literal day 31 of the upper bound lets no date of another month in and
    keeps no date of the month out. *)
Theorem get_monthly_report_calendar (c : connection) (p : patient_row)
    (y0 m0 : Z) :
  1000 <= y0 <= 9999 -> 1 <= m0 <= 12 ->
  In p (rows (patients (db c))) ->
  (forall v, In v (rows (visits (db c))) -> v_patient_id v = p_id p ->
             exists d, valid_date d /\ v_visit_date v = strftime_ymd d) ->
  exists rs,
    get_monthly_report y0 m0 c = Returns rs c
    /\ (In (project_patient p) rs
        <-> exists v d,
              In v (rows (visits (db c))) /\ v_patient_id v = p_id p
              /\ valid_date d /\ v_visit_date v = strftime_ymd d
              /\ year d = y0 /\ month d = m0).
Proof.
  intros Hy0 Hm0 Hp Hdates. eexists. split; [reflexivity|].
  rewrite nodup_In, join_patients_visits_In. split.
  - intros (p' & v & Hp' & Hv & Hid & Hb & Hproj).
    assert (Hpid : v_patient_id v = p_id p).
    { rewrite <- Hid. now apply (f_equal r_id) in Hproj. }
    destruct (Hdates v Hv Hpid) as (d & Hd & Hdate).
    rewrite Hdate, between_calendar_month in Hb by assumption.
    apply andb_true_iff in Hb. destruct Hb as [Hy Hm].
    apply Z.eqb_eq in Hy. apply Z.eqb_eq in Hm.
    exists v, d. auto 7.
  - intros (v & d & Hv & Hpid & Hd & Hdate & Hy & Hm).
    exists p, v. repeat split; auto.
    rewrite Hdate, between_calendar_month by assumption.
    now rewrite Hy, Hm, !Z.eqb_refl.
Qed.

Lemma get_monthly_report_calendar_witness :
  (exists rs,
     get_monthly_report 2024 4
       (conn_of
          (add_visit 1 (mkDate 2024 4 30) None None None [] "t2"
             (conn_of
                (add_patient "Siti" (mkDate 1990 5 17) None None None
                   (Some "Hidup") None "t1" (first_run sample_digest)))))
     = Returns rs
         (conn_of
            (add_visit 1 (mkDate 2024 4 30) None None None [] "t2"
               (conn_of
                  (add_patient "Siti" (mkDate 1990 5 17) None None None
                     (Some "Hidup") None "t1" (first_run sample_digest)))))
     /\ In (mkReportRow 1 "Siti" "1990-05-17" None None) rs)
  /\ (exists rs,
        get_monthly_report 2024 5
          (conn_of
             (add_visit 1 (mkDate 2024 4 30) None None None [] "t2"
                (conn_of
                   (add_patient "Siti" (mkDate 1990 5 17) None None None
                      (Some "Hidup") None "t1" (first_run sample_digest)))))
        = Returns rs
            (conn_of
               (add_visit 1 (mkDate 2024 4 30) None None None [] "t2"
                  (conn_of
                     (add_patient "Siti" (mkDate 1990 5 17) None None None
                        (Some "Hidup") None "t1" (first_run sample_digest)))))
        /\ ~ In (mkReportRow 1 "Siti" "1990-05-17" None None) rs).
Proof.
  set (c := conn_of
              (add_visit 1 (mkDate 2024 4 30) None None None [] "t2"
                 (conn_of
                    (add_patient "Siti" (mkDate 1990 5 17) None None None
                       (Some "Hidup") None "t1" (first_run sample_digest))))).
  set (p := mkPatient 1 "Siti" "1990-05-17" None None None (Some "Hidup") None
              "t1").
  assert (Hp : In p (rows (patients (db c)))) by (left; reflexivity).
  assert (Hvalid : valid_date (mkDate 2024 4 30)).
  { unfold valid_date. cbn. lia. }
  assert (Hdates : forall v, In v (rows (visits (db c))) ->
                     v_patient_id v = p_id p ->
                     exists d, valid_date d /\ v_visit_date v = strftime_ymd d).
  { intros v [Hv|[]] _. subst v. exists (mkDate 2024 4 30).
    split; [exact Hvalid | reflexivity]. }
  split.
  - destruct (get_monthly_report_calendar c p 2024 4 ltac:(lia) ltac:(lia)
                Hp Hdates) as (rs & Hrs & Hiff).
    exists rs. split; [exact Hrs|]. apply Hiff.
    eexists. exists (mkDate 2024 4 30).
    split; [left; reflexivity|]. repeat split; try reflexivity; apply Hvalid.
  - destruct (get_monthly_report_calendar c p 2024 5 ltac:(lia) ltac:(lia)
                Hp Hdates) as (rs & Hrs & Hiff).
    exists rs. split; [exact Hrs|]. intros Hin. apply Hiff in Hin.
    destruct Hin as (v & d & [Hv|[]] & _ & Hd & Hdate & _ & Hm).
    subst v. cbn [v_visit_date] in Hdate.
    change "2024-04-30" with (strftime_ymd (mkDate 2024 4 30)) in Hdate.
    apply (strftime_ymd_inj _ _ Hvalid Hd) in Hdate. subst d.
    cbn [month] in Hm. discriminate.
Defined.

(** X13: patients are told apart by name and date of birth.  When neither
    pair is stored yet, two registrations under the same name with two
    different valid dates of birth both return [True]: different dates
    never share a text in the [dob] column. *)
Theorem add_patient_same_name (c : connection) (name : string)
    (dob1 dob2 : date) gender1 diagnosis1 notes1 status1 handler1 now1
    gender2 diagnosis2 notes2 status2 handler2 now2 :
  valid_date dob1 -> valid_date dob2 -> dob1 <> dob2 ->
  count_patients name (strftime_ymd dob1) c = 0%nat ->
  count_patients name (strftime_ymd dob2) c = 0%nat ->
  value_of
    (add_patient name dob1 gender1 diagnosis1 notes1 status1 handler1 now1 c)
  = Some true
  /\ value_of
       (add_patient name dob2 gender2 diagnosis2 notes2 status2 handler2 now2
          (conn_of
             (add_patient name dob1 gender1 diagnosis1 notes1 status1
                handler1 now1 c)))
     = Some true.
Proof.
  intros H1 H2 Hne Hc1 Hc2.
  assert (E1 : existsb (fun p => (p_name p =? name)%string
                                 && (p_dob p =? strftime_ymd dob1)%string)
                 (rows (patients (db c))) = false).
  { apply existsb_filter_nil. now apply length_zero_iff_nil. }
  rewrite (add_patient_fresh name dob1 gender1 diagnosis1 notes1 status1
             handler1 now1 c E1).
  cbn [value_of conn_of]. split; [reflexivity|].
  rewrite add_patient_fresh; [reflexivity|].
  cbn [db patients set_patients append_row rows].
  rewrite existsb_app. cbn [existsb p_name p_dob].
  assert (E2 : existsb (fun p => (p_name p =? name)%string
                                 && (p_dob p =? strftime_ymd dob2)%string)
                 (rows (patients (db c))) = false).
  { apply existsb_filter_nil. now apply length_zero_iff_nil. }
  rewrite E2, String.eqb_refl. cbn [orb andb].
  destruct (String.eqb_spec (strftime_ymd dob1) (strftime_ymd dob2)) as [E|E];
    [|reflexivity].
  exfalso. apply Hne. now apply strftime_ymd_inj.
Qed.

Lemma add_patient_same_name_witness :
  valid_date (mkDate 1990 5 17) /\ valid_date (mkDate 1990 5 18)
  /\ value_of
       (add_patient "Siti" (mkDate 1990 5 18) None None None (Some "Hidup")
          None "t2"
          (conn_of
             (add_patient "Siti" (mkDate 1990 5 17) None None None
                (Some "Hidup") None "t1" (first_run sample_digest))))
     = Some true.
Proof.
  assert (H1 : valid_date (mkDate 1990 5 17)) by (unfold valid_date; cbn; lia).
  assert (H2 : valid_date (mkDate 1990 5 18)) by (unfold valid_date; cbn; lia).
  split; [exact H1|]. split; [exact H2|].
  apply (add_patient_same_name (first_run sample_digest) "Siti"
           (mkDate 1990 5 17) (mkDate 1990 5 18) None None None (Some "Hidup")
           None "t1" None None None (Some "Hidup") None "t2" H1 H2).
  - discriminate.
  - reflexivity.
  - reflexivity.
Defined.

(** ** What [add_visit] stores *)

Lemma all_chars_append (P : ascii -> bool) (a b : string) :
  all_chars P (a ++ b) = all_chars P a && all_chars P b.
Proof.
  induction a as [|c a IH]; cbn [append all_chars]; [reflexivity|].
  now rewrite IH, andb_assoc.
Qed.

Lemma escape_char_printable (c : ascii) :
  all_chars printable (escape_char c) = true.
Proof.
  destruct c as [[] [] [] [] [] [] [] []]; reflexivity.
Qed.

Lemma encode_printable (s : string) :
  all_chars printable (encode_basestring_ascii s) = true.
Proof.
  unfold encode_basestring_ascii. cbn [all_chars].
  rewrite all_chars_append. cbn [all_chars].
  change (printable quote_char) with true. cbn [andb]. rewrite andb_true_r.
  induction s as [|c s IH]; cbn [escape_body]; [reflexivity|].
  now rewrite all_chars_append, escape_char_printable, IH.
Qed.

Lemma json_dumps_printable (tags : list string) :
  all_chars printable (json_dumps tags) = true.
Proof.
  unfold json_dumps.
  change ("[" ++ dumps_items tags ++ "]")
    with (String "[" (dumps_items tags ++ "]")).
  cbn [all_chars]. rewrite all_chars_append.
  change (printable "[") with true. cbn [andb all_chars].
  change (printable "]") with true. cbn [andb]. rewrite andb_true_r.
  induction tags as [|x [|y l] IH].
  - reflexivity.
  - cbn [dumps_items]. apply encode_printable.
  - change (dumps_items (x :: y :: l))
      with (encode_basestring_ascii x ++ ", " ++ dumps_items (y :: l)).
    rewrite !all_chars_append, encode_printable, IH. reflexivity.
Qed.

(** X10: what a returning [add_visit] leaves in the ledger.  The old rows
    are followed by one new row, which carries the returned id, the patient
    id as given, the text of the visit date and a [tags] cell that is made of
    the characters from the space to the tilde only (whatever characters the
    tags have) and that [json_loads] reads back as the list given. *)
Theorem add_visit_stored_row (c c' : connection) patient_id visit_date
    reason outcome progress (tags : list string) now (id : Z) :
  add_visit patient_id visit_date reason outcome progress tags now c
  = Returns id c' ->
  exists v t,
    rows (visits (db c')) = (rows (visits (db c)) ++ [v])%list
    /\ v_id v = id
    /\ v_patient_id v = patient_id
    /\ v_visit_date v = strftime_ymd visit_date
    /\ v_tags v = Some t
    /\ all_chars printable t = true
    /\ json_loads t = Some tags.
Proof.
  unfold add_visit, bind, insert_visit, commit, ret.
  destruct (foreign_keys c && _); [discriminate|].
  intros H. inversion H; subst. clear H.
  eexists. exists (json_dumps tags).
  cbn [db visits set_visits append_row rows].
  split; [reflexivity|]. cbn [v_id v_patient_id v_visit_date v_tags].
  repeat split; auto using json_dumps_printable, json_loads_dumps.
Qed.

Lemma add_visit_stored_row_witness :
  add_visit 1 (mkDate 2024 2 29) None None None
    [String "233" "kg"; "EKG"] "t1" (first_run sample_digest)
  = Returns 1
      (conn_of
         (add_visit 1 (mkDate 2024 2 29) None None None
            [String "233" "kg"; "EKG"] "t1" (first_run sample_digest)))
  /\ exists v t,
       rows (visits (db
         (conn_of
            (add_visit 1 (mkDate 2024 2 29) None None None
               [String "233" "kg"; "EKG"] "t1" (first_run sample_digest)))))
       = (rows (visits (db (first_run sample_digest))) ++ [v])%list
       /\ v_tags v = Some t
       /\ all_chars printable t = true
       /\ json_loads t = Some [String "233" "kg"; "EKG"].
Proof.
  assert (H : add_visit 1 (mkDate 2024 2 29) None None None
                [String "233" "kg"; "EKG"] "t1" (first_run sample_digest)
              = Returns 1
                  (conn_of
                     (add_visit 1 (mkDate 2024 2 29) None None None
                        [String "233" "kg"; "EKG"] "t1"
                        (first_run sample_digest)))) by reflexivity.
  split; [exact H|].
  destruct (add_visit_stored_row _ _ _ _ _ _ _ _ _ _ H)
    as (v & t & Hrows & _ & _ & _ & Htags & Hprint & Hloads).
  exists v, t. auto.
Defined.

(** ** Referential integrity by discipline *)

Lemma reachable_checked_reachable sha (c : connection) :
  reachable_checked sha c -> reachable sha c.
Proof.
  induction 1.
  - apply reach_first_run.
  - now apply reach_init_db.
  - now apply reach_add_patient.
  - now apply reach_add_visit.
  - now apply reach_update_patient_status.
Qed.

Lemma patient_exists_step sha (c c' : connection) (patient_id : Z) :
  step sha c c' ->
  patient_exists patient_id c = true -> patient_exists patient_id c' = true.
Proof.
  intros Hstep H. destruct (step_keeps sha c c' Hstep) as (_ & [ps Hps] & _).
  unfold patient_exists in *. apply existsb_exists in H.
  destruct H as (p & Hin & Hp). apply Z.eqb_eq in Hp.
  assert (Hid : In patient_id (map p_id (rows (patients (db c'))))).
  { assert (Hmap : forall l, map p_id l
                             = map (fun k => fst (fst (fst (fst (fst (fst k))))))
                                 (map frozen_columns l)).
    { intros l. rewrite map_map. reflexivity. }
    rewrite Hmap, Hps, map_app, <- Hmap. apply in_or_app. left.
    apply in_map_iff. eauto. }
  apply in_map_iff in Hid. destruct Hid as (q & Hq & Hqin).
  apply existsb_exists. exists q. split; [exact Hqin|]. now apply Z.eqb_eq.
Qed.

(** X15: referential integrity holds by discipline.  No function deletes a
    patient or changes an id; so when [add_visit] is only ever called for a
    stored patient, every visit of the ledger references a stored patient,
    although the connection does not enforce the foreign key. *)
Theorem reachable_checked_integrity sha (c : connection) :
  reachable_checked sha c ->
  Forall (fun v => patient_exists (v_patient_id v) c = true)
    (rows (visits (db c))).
Proof.
  assert (Hkeep : forall c0 c1,
            step sha c0 c1 ->
            rows (visits (db c1)) = rows (visits (db c0)) ->
            Forall (fun v => patient_exists (v_patient_id v) c0 = true)
              (rows (visits (db c0))) ->
            Forall (fun v => patient_exists (v_patient_id v) c1 = true)
              (rows (visits (db c1)))).
  { intros c0 c1 Hstep Hrows H0. rewrite Hrows.
    eapply Forall_impl; [|exact H0]. intros v.
    now apply (patient_exists_step sha c0 c1). }
  induction 1 as [|c H IH|c name dob gender diagnosis notes status handler
                   now H IH|c patient_id visit_date reason outcome progress
                   tags now H IH Hex|c patient_id new_status handler H IH].
  - constructor.
  - apply (Hkeep c); [apply step_init_db| |exact IH].
    rewrite init_db_consistent; [reflexivity|].
    now apply reachable_consistent, reachable_checked_reachable.
  - apply (Hkeep c); [apply step_add_patient| |exact IH].
    destruct (existsb (fun p => (p_name p =? name)%string
                                && (p_dob p =? strftime_ymd dob)%string)
                (rows (patients (db c)))) eqn:E.
    + now rewrite add_patient_duplicate by exact E.
    + now rewrite add_patient_fresh by exact E.
  - pose proof (step_add_visit sha c patient_id visit_date reason outcome
                  progress tags now) as Hstep.
    revert Hstep. rewrite (add_visit_known _ _ _ _ _ _ _ c Hex).
    cbn [conn_of]. intros Hstep.
    cbn [db visits set_visits append_row rows]. apply Forall_app. split.
    + eapply Forall_impl; [|exact IH]. intros v.
      now apply (patient_exists_step sha c _ (v_patient_id v) Hstep).
    + constructor; [|constructor]. cbn [v_patient_id].
      now apply (patient_exists_step sha c _ patient_id Hstep).
  - apply (Hkeep c); [apply step_update_patient_status| |exact IH].
    destruct (fits_int64 patient_id) eqn:F.
    + now rewrite update_patient_status_eq by exact F.
    + now rewrite update_patient_status_overflow by exact F.
Qed.

Lemma reachable_checked_integrity_witness :
  reachable_checked sample_digest
    (conn_of
       (add_visit 1 (mkDate 2024 2 29) None None None ["EKG"] "t2"
          (conn_of
             (add_patient "Siti" (mkDate 1990 5 17) None None None
                (Some "Hidup") None "t1" (first_run sample_digest)))))
  /\ Forall
       (fun v =>
          patient_exists (v_patient_id v)
            (conn_of
               (add_visit 1 (mkDate 2024 2 29) None None None ["EKG"] "t2"
                  (conn_of
                     (add_patient "Siti" (mkDate 1990 5 17) None None None
                        (Some "Hidup") None "t1" (first_run sample_digest)))))
          = true)
       (rows (visits (db
          (conn_of
             (add_visit 1 (mkDate 2024 2 29) None None None ["EKG"] "t2"
                (conn_of
                   (add_patient "Siti" (mkDate 1990 5 17) None None None
                      (Some "Hidup") None "t1"
                      (first_run sample_digest)))))))).
Proof.
  match goal with |- reachable_checked _ ?x /\ _ => set (c := x) end.
  assert (H : reachable_checked sample_digest c).
  { apply checked_add_visit; [|reflexivity].
    apply checked_add_patient, checked_first_run. }
  split; [exact H|].
  exact (reachable_checked_integrity sample_digest c H).
Defined.

(** Under the discipline no visit references an id above the counter of
    the patients table. *)
Lemma visits_below_counter sha (c : connection) :
  reachable_checked sha c ->
  Forall (fun v => v_patient_id v <= seq (patients (db c)))
    (rows (visits (db c))).
Proof.
  induction 1 as [|c H IH|c name dob gender diagnosis notes status handler
                   now H IH|c patient_id visit_date reason outcome progress
                   tags now H IH Hex|c patient_id new_status handler H IH].
  - constructor.
  - rewrite init_db_consistent; [exact IH|].
    now apply reachable_consistent, reachable_checked_reachable.
  - destruct (existsb (fun p => (p_name p =? name)%string
                                && (p_dob p =? strftime_ymd dob)%string)
                (rows (patients (db c)))) eqn:E.
    + now rewrite add_patient_duplicate by exact E.
    + rewrite add_patient_fresh by exact E.
      cbn [conn_of db patients visits set_patients append_row seq].
      eapply Forall_impl; [|exact IH]. cbn. intros; lia.
  - rewrite (add_visit_known _ _ _ _ _ _ _ c Hex).
    cbn [conn_of db patients visits set_visits append_row rows].
    apply Forall_app. split; [exact IH|].
    constructor; [|constructor]. cbn [v_patient_id].
    unfold patient_exists in Hex. apply existsb_exists in Hex.
    destruct Hex as (p & Hp & Hid). apply Z.eqb_eq in Hid. subst patient_id.
    apply reachable_checked_reachable, reachable_consistent in H.
    pose proof (cons_ids _ _ H) as Hids. rewrite Forall_forall in Hids.
    now apply Hids.
  - destruct (fits_int64 patient_id) eqn:F.
    + rewrite update_patient_status_eq by exact F.
      cbn [conn_of db patients visits set_patients seq]. exact IH.
    + now rewrite update_patient_status_overflow by exact F.
Qed.

Lemma flat_map_nil {A B : Type} (f : A -> list B) (l : list A) :
  (forall x, In x l -> f x = []) -> flat_map f l = [].
Proof.
  induction l as [|a l IH]; cbn [flat_map]; intros H; [reflexivity|].
  rewrite (H a) by now left. apply IH. intros x Hx. apply H. now right.
Qed.

(** X16: under the same discipline a registration changes no monthly
    report: the new patient has an id that no visit references, so the
    report of every month is what it was before [add_patient]. *)
Theorem add_patient_keeps_monthly_reports sha (c : connection) name dob
    gender diagnosis notes status handler now (year month : Z) :
  reachable_checked sha c ->
  value_of
    (get_monthly_report year month
       (conn_of (add_patient name dob gender diagnosis notes status handler
                   now c)))
  = value_of (get_monthly_report year month c).
Proof.
  intros H. pose proof (visits_below_counter sha c H) as Hint.
  destruct (existsb (fun p => (p_name p =? name)%string
                              && (p_dob p =? strftime_ymd dob)%string)
              (rows (patients (db c)))) eqn:E.
  - now rewrite add_patient_duplicate by exact E.
  - rewrite add_patient_fresh by exact E. cbn [conn_of].
    unfold get_monthly_report. cbn [value_of]. do 2 f_equal.
    unfold join_patients_visits.
    cbn [db patients visits set_patients append_row rows].
    rewrite flat_map_app. cbn [flat_map]. rewrite app_nil_r.
    rewrite (flat_map_nil _ (rows (visits (db c)))); [apply app_nil_r|].
    intros v Hv. cbn [p_id].
    rewrite Forall_forall in Hint. specialize (Hint v Hv). cbn beta in Hint.
    destruct (Z.eqb_spec (seq (patients (db c)) + 1) (v_patient_id v));
      [lia | reflexivity].
Qed.

Lemma add_patient_keeps_monthly_reports_witness :
  reachable_checked sample_digest
    (conn_of
       (add_visit 1 (mkDate 2024 2 29) None None None ["EKG"] "t2"
          (conn_of
             (add_patient "Siti" (mkDate 1990 5 17) None None None
                (Some "Hidup") None "t1" (first_run sample_digest)))))
  /\ value_of
       (get_monthly_report 2024 2
          (conn_of
             (add_patient "Budi" (mkDate 1985 3 9) None None None
                (Some "Hidup") None "t3"
                (conn_of
                   (add_visit 1 (mkDate 2024 2 29) None None None ["EKG"] "t2"
                      (conn_of
                         (add_patient "Siti" (mkDate 1990 5 17) None None None
                            (Some "Hidup") None "t1"
                            (first_run sample_digest))))))))
     = Some [mkReportRow 1 "Siti" "1990-05-17" None None].
Proof.
  match goal with |- reachable_checked _ ?x /\ _ => set (c := x) end.
  assert (H : reachable_checked sample_digest c).
  { apply checked_add_visit; [|reflexivity].
    apply checked_add_patient, checked_first_run. }
  split; [exact H|].
  rewrite (add_patient_keeps_monthly_reports sample_digest c "Budi"
             (mkDate 1985 3 9) None None None (Some "Hidup") None "t3" 2024 2
             H).
  reflexivity.
Defined.

(** ** What a status update writes *)

(** X17: a status update writes the status and the handler of one patient
    and nothing else.  For a stored patient on a reachable connection, whose
    id fits a rowid, the call returns; afterwards the row of that patient
    carries the new status and the new handler with all its other columns
    as before, every other row of the table is as it was, in place, and
    nothing is left uncommitted. *)
Theorem update_patient_status_writes sha (c : connection) (p : patient_row)
    new_status handler :
  reachable sha c ->
  In p (rows (patients (db c))) ->
  fits_int64 (p_id p) = true ->
  exists c' before after,
    update_patient_status (p_id p) new_status handler c = Returns tt c'
    /\ rows (patients (db c)) = (before ++ p :: after)%list
    /\ rows (patients (db c'))
       = (before
          ++ mkPatient (p_id p) (p_name p) (p_dob p) (p_gender p)
               (p_diagnosis p) (p_notes p) new_status handler
               (p_created_at p)
          :: after)%list
    /\ file c' = db c'.
Proof.
  intros Hreach Hin F. apply reachable_consistent in Hreach.
  pose proof (cons_ids_nodup _ _ Hreach) as Hnd.
  rewrite update_patient_status_eq by exact F.
  destruct (in_split _ _ Hin) as (l1 & l2 & Hrows).
  eexists. exists l1, l2. split; [reflexivity|]. split; [exact Hrows|].
  split; [|reflexivity].
  cbn [db patients set_patients rows].
  rewrite Hrows in *. rewrite map_app in Hnd. cbn [map] in Hnd.
  apply NoDup_remove_2 in Hnd.
  rewrite map_app. cbn [map].
  rewrite (map_set_status_others new_status handler (p_id p) l1),
          (map_set_status_others new_status handler (p_id p) l2).
  - unfold set_status. now rewrite Z.eqb_refl.
  - intros H. apply Hnd. apply in_or_app. now right.
  - intros H. apply Hnd. apply in_or_app. now left.
Qed.

Lemma update_patient_status_writes_witness :
  reachable sample_digest
    (conn_of
       (add_patient "Budi" (mkDate 1985 3 9) None None None (Some "Hidup")
          None "t2"
          (conn_of
             (add_patient "Siti" (mkDate 1990 5 17) None None None
                (Some "Hidup") None "t1" (first_run sample_digest)))))
  /\ fits_int64 2 = true
  /\ exists c' before after,
       update_patient_status 2 (Some "Meninggal Dunia") (Some "admin")
         (conn_of
            (add_patient "Budi" (mkDate 1985 3 9) None None None
               (Some "Hidup") None "t2"
               (conn_of
                  (add_patient "Siti" (mkDate 1990 5 17) None None None
                     (Some "Hidup") None "t1" (first_run sample_digest)))))
       = Returns tt c'
       /\ rows (patients (db c'))
          = (before
             ++ mkPatient 2 "Budi" "1985-03-09" None None None
                  (Some "Meninggal Dunia") (Some "admin") "t2"
             :: after)%list.
Proof.
  match goal with |- reachable _ ?x /\ _ => set (c := x) end.
  assert (H : reachable sample_digest c).
  { repeat apply reach_add_patient. apply reach_first_run. }
  split; [exact H|]. split; [reflexivity|].
  destruct (update_patient_status_writes sample_digest c
              (mkPatient 2 "Budi" "1985-03-09" None None None (Some "Hidup")
                 None "t2")
              (Some "Meninggal Dunia") (Some "admin") H
              (or_intror (or_introl eq_refl)) eq_refl)
    as (c' & before & after & Hret & _ & Hrows & _).
  exists c', before, after. split; [exact Hret | exact Hrows].
Defined.
